(** * pandasio.validation.errors: the error taxonomy and the error accumulator

    A shallow embedding of [pandasio/validation/errors.py].

    Modelling conventions.

    - A pandas [Series] is the ordered sequence of its rows, each row a pair of
      an index label and the Python object held there.  Labels are kept
      abstract: the code never inspects them, it only copies them into the
      report through [s.index.values].
    - The objects of a column are the scalars of the interface: integers,
      text, booleans and the missing value (None / NaN / NaT, which pandas
      treats alike).  Floating-point numbers are outside the model.  A text
      is a sequence of characters with code points below 256 (a [string] is
      read one character per element, not as the bytes of an encoding), and
      the character tests are Python's on that range; characters beyond it
      are outside the model.  What pandas decides from the dtype of a column
      is decided here from the values it holds, as for a column of dtype
      [object].
    - A boolean mask computed from a Series carries that Series' own index, so
      [s.loc[mask]] and [s[mask]] select positionally.
    - A Python exception is a value: a computation that can raise returns
      [result A], and the accumulator, which mutates [self.errors], runs in a
      state-and-exception monad over the list of reports.
    - Assertions are modelled as enabled (the interpreter's default). *)

From Stdlib Require Import List String Ascii ZArith Bool Lia DecimalString.
Import ListNotations.
Local Open Scope string_scope.
Local Open Scope Z_scope.

Set Implicit Arguments.
Set Default Proof Using "Type".

(** ** Python exceptions and results *)

Inductive exn : Type :=
| AssertionError (msg : string)
| NotImplementedError (msg : string)
| TypeError
| AttributeError
| KeyError
| ValueError
| IndexingError.

Inductive result (A : Type) : Type :=
| Ok (a : A)
| Raise (e : exn).

Arguments Ok {A} a.
Arguments Raise {A} e.

Definition rbind {A B} (m : result A) (k : A -> result B) : result B :=
  match m with
  | Ok a => k a
  | Raise e => Raise e
  end.

Declare Scope py_scope.
Delimit Scope py_scope with py.
Notation "x <- m ;; k" := (rbind m (fun x => k))
  (at level 61, m at next level, right associativity) : py_scope.

Fixpoint mapM {A B} (f : A -> result B) (l : list A) : result (list B) :=
  match l with
  | [] => Ok []
  | a :: l' =>
      match f a with
      | Raise e => Raise e
      | Ok b =>
          match mapM f l' with
          | Raise e => Raise e
          | Ok bs => Ok (b :: bs)
          end
      end
  end.

(** ** Python text operations (characters below U+0100) *)

(** The digits [0] to [9]. *)
Definition is_digit (a : ascii) : bool :=
  let n := nat_of_ascii a in (48 <=? n)%nat && (n <=? 57)%nat.

(** [ch.isnumeric()]: the digits, the superscripts two, three and one, and
    the fractions one quarter, one half and three quarters. *)
Definition is_numeric (a : ascii) : bool :=
  let n := nat_of_ascii a in
  ((48 <=? n)%nat && (n <=? 57)%nat)
  || ((178 <=? n)%nat && (n <=? 179)%nat)
  || (n =? 185)%nat
  || ((188 <=? n)%nat && (n <=? 190)%nat).

(** [ch.isupper()]: [A] to [Z] and the accented capitals. *)
Definition is_upper (a : ascii) : bool :=
  let n := nat_of_ascii a in
  ((65 <=? n)%nat && (n <=? 90)%nat)
  || ((192 <=? n)%nat && (n <=? 214)%nat)
  || ((216 <=? n)%nat && (n <=? 222)%nat).

(** [ch.islower()]: [a] to [z], the two ordinal indicators, the micro sign
    and the accented small letters. *)
Definition is_lower (a : ascii) : bool :=
  let n := nat_of_ascii a in
  ((97 <=? n)%nat && (n <=? 122)%nat)
  || (n =? 170)%nat
  || (n =? 181)%nat
  || (n =? 186)%nat
  || ((223 <=? n)%nat && (n <=? 246)%nat)
  || ((248 <=? n)%nat && (n <=? 255)%nat).

Fixpoint str_forallb (p : ascii -> bool) (s : string) : bool :=
  match s with
  | EmptyString => true
  | String a s' => p a && str_forallb p s'
  end.

Fixpoint str_existsb (p : ascii -> bool) (s : string) : bool :=
  match s with
  | EmptyString => false
  | String a s' => p a || str_existsb p s'
  end.

(** [str.isupper()]: no cased character is lowercase and there is at least one
    cased character (no character below U+0100 is titlecase). *)
Definition isupper (s : string) : bool :=
  negb (str_existsb is_lower s) && str_existsb is_upper s.

(** [str.isnumeric()]: non-empty and every character is numeric. *)
Definition isnumeric (s : string) : bool :=
  match s with
  | EmptyString => false
  | String _ _ => str_forallb is_numeric s
  end.

(** [str.lstrip(chars)]: drops every leading character that occurs in [chars]. *)
Fixpoint lstrip (chars : string) (s : string) : string :=
  match s with
  | EmptyString => EmptyString
  | String a s' =>
      if str_existsb (Ascii.eqb a) chars then lstrip chars s' else s
  end.

(** ** Scalars *)

Inductive scalar : Type :=
| Num (z : Z)
| Str (s : string)
| Bool (b : bool)
| Null.

Definition is_null (v : scalar) : bool :=
  match v with
  | Null => true
  | _ => false
  end.

(** [str(x)] *)
Definition str (v : scalar) : string :=
  match v with
  | Num z => NilZero.string_of_int (Z.to_int z)
  | Str s => s
  | Bool true => "True"
  | Bool false => "False"
  | Null => "nan"
  end.

(** The integer a Python number or boolean compares as. *)
Definition as_number (v : scalar) : option Z :=
  match v with
  | Num z => Some z
  | Bool b => Some (Z.b2z b)
  | _ => None
  end.

(** [x < limit] and [x > limit] as pandas evaluates them element by element:
    a missing value compares false, text against a number raises. *)
Definition scalar_compare (op : Z -> Z -> bool) (v : scalar) (limit : Z)
  : result bool :=
  match v with
  | Null => Ok false
  | Str _ => Raise TypeError
  | Num z => Ok (op z limit)
  | Bool b => Ok (op (Z.b2z b) limit)
  end.

(** [x == other] for text [other]: never raises. *)
Definition scalar_eq_str (v : scalar) (other : string) : bool :=
  match v with
  | Str s => String.eqb s other
  | _ => false
  end.

(** Value equality as pandas groups values when it looks for duplicates:
    Python [==] (so [1 == True]), with missing values equal to one another. *)
Definition scalar_eqb (v w : scalar) : bool :=
  match v, w with
  | Null, Null => true
  | Str s, Str t => String.eqb s t
  | Str _, _ | _, Str _ => false
  | Null, _ | _, Null => false
  | _, _ =>
      match as_number v, as_number w with
      | Some a, Some b => a =? b
      | _, _ => false
      end
  end.

Section Taxonomy.

(** Row labels: whatever indexing scheme the caller's table uses. *)
Variable label : Type.

(** ** pandas objects *)

(** A Series: its rows in order, each an index label with the value held. *)
Definition Series (A : Type) : Type := list (label * A).

Definition column : Type := Series scalar.

(** A DataFrame: the column names, and the rows in order, each an index label
    with the cells of the row in column order (a cell that is not there reads
    as missing). *)
Record DataFrame : Type := {
  columns : list string;
  rows : Series (list scalar)
}.

(** [obj.index.values] *)
Class Indexed (T : Type) : Type := index_values : T -> list label.

#[local] Instance Series_Indexed (A : Type) : Indexed (Series A) :=
  fun s => map fst s.

#[local] Instance DataFrame_Indexed : Indexed DataFrame :=
  fun t => map fst (rows t).

Definition values {A} (s : Series A) : list A := map snd s.

(** [s.loc[mask]] and [s[mask]] for a boolean mask aligned with [s]. *)
Definition select {A} (s : Series A) (mask : list bool) : Series A :=
  map fst (filter snd (combine s mask)).

(** [s.apply(f)], as the values of the resulting Series. *)
Definition apply {A B} (f : A -> B) (s : Series A) : list B :=
  map f (values s).

(** [s.dropna()] *)
Definition dropna (s : column) : column :=
  filter (fun row => negb (is_null (snd row))) s.

(** [s.isnull()] *)
Definition isnull (s : column) : list bool := apply is_null s.

(** [s < limit], [s > limit]: raises as soon as one element does. *)
Definition compare (op : Z -> Z -> bool) (s : column) (limit : Z)
  : result (list bool) :=
  mapM (fun x => scalar_compare op x limit) (values s).

(** [s == other] *)
Definition eq_str (s : column) (other : string) : list bool :=
  apply (fun x => scalar_eq_str x other) s.

(** [s.str]: the accessor is refused ("Can only use .str accessor with string
    values") when the values present are all numbers or all booleans; text,
    a mixture, or no value present at all is let through. *)
Definition str_accessor (s : column) : result column :=
  match filter (fun x => negb (is_null x)) (values s) with
  | [] => Ok s
  | present =>
      if forallb (fun x => match x with Num _ => true | _ => false end) present
         || forallb (fun x => match x with Bool _ => true | _ => false end) present
      then Raise AttributeError
      else Ok s
  end.

(** [s.str.len()]: the length of each text value, missing for anything else. *)
Definition str_len (s : column) : list (option Z) :=
  apply (fun x => match x with
                  | Str t => Some (Z.of_nat (String.length t))
                  | _ => None
                  end) s.

(** Comparison of a Series of lengths with a limit: a missing length
    compares false. *)
Definition compare_len (op : Z -> Z -> bool) (lens : list (option Z)) (limit : Z)
  : list bool :=
  map (fun n => match n with Some n => op n limit | None => false end) lens.

(** The cells of a row under the columns named in [subset], in column order. *)
Fixpoint restrict (cols : list string) (subset : list string) (row : list scalar)
  : list scalar :=
  match cols with
  | [] => []
  | name :: cols' =>
      if existsb (String.eqb name) subset
      then hd Null row :: restrict cols' subset (tl row)
      else restrict cols' subset (tl row)
  end.

Fixpoint cells_eqb (r1 r2 : list scalar) : bool :=
  match r1, r2 with
  | [], [] => true
  | v :: r1', w :: r2' => scalar_eqb v w && cells_eqb r1' r2'
  | _, _ => false
  end.

(** Marks every key already met earlier in the sequence ([keep="first"]). *)
Fixpoint mark_duplicates (seen : list (list scalar)) (keys : list (list scalar))
  : list bool :=
  match keys with
  | [] => []
  | k :: keys' =>
      existsb (cells_eqb k) seen :: mark_duplicates (k :: seen) keys'
  end.

(** [df.empty] *)
Definition empty (t : DataFrame) : bool :=
  match columns t, rows t with
  | [], _ | _, [] => true
  | _, _ => false
  end.

(** [df.duplicated(subset=subset)]: an empty frame answers with an empty
    mask; a name of [subset] that is no column is a [KeyError]; an empty
    [subset] leaves nothing to group by, which pandas reports as a
    [ValueError].  Otherwise the rows are compared on the columns whose name
    is in [subset], and every row equal to an earlier one is marked. *)
Definition duplicated (t : DataFrame) (subset : list string)
  : result (list bool) :=
  if empty t then Ok []
  else if forallb (fun f => existsb (String.eqb f) (columns t)) subset
  then match subset with
       | [] => Raise ValueError
       | _ => Ok (mark_duplicates []
                    (map (restrict (columns t) subset) (values (rows t))))
       end
  else Raise KeyError.

(** [df[mask]] for a boolean Series: a mask that does not cover the rows of
    the frame cannot be aligned. *)
Definition getitem_mask (t : DataFrame) (mask : list bool) : result DataFrame :=
  if (List.length mask =? List.length (rows t))%nat
  then Ok {| columns := columns t; rows := select (rows t) mask |}
  else Raise IndexingError.

(** Attribute access on an optional object: [None] has no attribute. *)
Definition getattr {A} (s : option A) : result A :=
  match s with
  | Some a => Ok a
  | None => Raise AttributeError
  end.

(** ** Violation reports *)

Inductive pyvalue : Type :=
| PInt (z : Z)
| PStr (s : string)
| PList (l : list string)
| PTuple (l : list string).

(** The dict built by [form_response]: the two fixed keys and the keyword
    arguments merged after them (no variant passes a keyword named [reason]
    or [indexes]). *)
Record report : Type := {
  reason : option string;
  indexes : list label;
  kwargs : list (string * pyvalue)
}.

(** ** The abstract [Error]

    An instance is its class constant [CODE] together with the [to_dict] its
    class defines; the method receives [self.CODE], which is how
    [form_response] reads the code of the instance's own class. *)
Record Error (data : Type) : Type := {
  CODE : option string;
  to_dict_method : option string -> data -> result report
}.

Definition to_dict {data} (self : Error data) (s : data) : result report :=
  to_dict_method self (CODE self) s.

Definition __post_init__ {data} (self : Error data) : result unit :=
  match CODE self with
  | None => Raise (AssertionError "`CODE` cannot be None.")
  | Some code =>
      if isupper code then Ok tt
      else Raise (AssertionError "The `CODE` should be uppercase.")
  end.

(** Calling a class: the dataclass [__init__] has filled the fields, then
    [__post_init__] runs. *)
Definition new {data} (self : Error data) : result (Error data) :=
  (_ <- __post_init__ self ;; Ok self)%py.

Definition form_response {T} `{Indexed T}
  (self_CODE : option string) (s : option T) (kw : list (string * pyvalue))
  : report :=
  {| reason := self_CODE;
     indexes := match s with
                | Some s => index_values s
                | None => []
                end;
     kwargs := kw |}.

(** A subclass that overrides nothing but [CODE]. *)
Definition subclass {data} (base : Error data) (code : string) : Error data :=
  {| CODE := Some code; to_dict_method := to_dict_method base |}.

(** ** The concrete variants *)

Definition NonNumericValueError : Error (option column) :=
  {| CODE := Some "NON_NUMERIC_VALUE";
     to_dict_method := fun self_CODE s =>
       (s <- getattr s ;;
        Ok (form_response self_CODE
              (Some (dropna
                       (select s
                          (apply (fun x => negb (isnumeric (lstrip "-" (str x))))
                             s))))
              []))%py |}.

Definition FieldRequiredError : Error (option column) :=
  {| CODE := Some "FIELD_REQUIRED";
     to_dict_method := fun self_CODE _ =>
       Ok (form_response self_CODE (@None column) []) |}.

Definition NullNotAllowedError : Error (option column) :=
  {| CODE := Some "NULL_NOT_ALLOWED";
     to_dict_method := fun self_CODE s =>
       (s <- getattr s ;;
        Ok (form_response self_CODE (Some (select s (isnull s))) []))%py |}.

Definition MinValueError (min_value : Z) : Error (option column) :=
  {| CODE := Some "MIN_VALUE";
     to_dict_method := fun self_CODE s =>
       (s <- getattr s ;;
        mask <- compare Z.ltb s min_value ;;
        Ok (form_response self_CODE (Some (select s mask))
              [("limit_value", PInt min_value)]))%py |}.

Definition MaxValueError (max_value : Z) : Error (option column) :=
  {| CODE := Some "MAX_VALUE";
     to_dict_method := fun self_CODE s =>
       (s <- getattr s ;;
        mask <- compare Z.gtb s max_value ;;
        Ok (form_response self_CODE (Some (select s mask))
              [("limit_value", PInt max_value)]))%py |}.

Definition MinLengthError (min_value : Z) : Error (option column) :=
  {| CODE := Some "MIN_LENGTH_VALUE";
     to_dict_method := fun self_CODE s =>
       (s <- getattr s ;;
        texts <- str_accessor s ;;
        Ok (form_response self_CODE
              (Some (select s (compare_len Z.ltb (str_len texts) min_value)))
              [("limit_value", PInt min_value)]))%py |}.

Definition MaxLengthError (max_value : Z) : Error (option column) :=
  {| CODE := Some "MAX_LENGTH_VALUE";
     to_dict_method := fun self_CODE s =>
       (s <- getattr s ;;
        texts <- str_accessor s ;;
        Ok (form_response self_CODE
              (Some (select s (compare_len Z.gtb (str_len texts) max_value)))
              [("limit_value", PInt max_value)]))%py |}.

Definition NonUniqueTogetherError (unique_together_fields : list string)
  : Error DataFrame :=
  {| CODE := Some "NON_UNIQUE_TOGETHER";
     to_dict_method := fun self_CODE s =>
       (mask <- duplicated s unique_together_fields ;;
        dup <- getitem_mask s mask ;;
        Ok (form_response self_CODE (Some dup)
              [("unique_together_fields", PList unique_together_fields)]))%py |}.

(** [pd.to_datetime(s, format=..., errors="coerce")] is pandas' parser and is
    taken as given: [parse_datetime format v] is the timestamp [v] parses to
    under [format], and [None] (NaT) when it does not parse. *)
Variable datetime : Type.
Variable date : Type.
Variable parse_datetime : string -> scalar -> option datetime.
Variable datetime_date : datetime -> date.

(** [pd.to_datetime] hands [None] back as it is. *)
Definition to_datetime (s : option column) (format : string)
  : option (Series (option datetime)) :=
  option_map (map (fun row => (fst row, parse_datetime format (snd row)))) s.

(** [s.dt.date]: NaT stays NaT. *)
Definition dt_date (s : Series (option datetime)) : Series (option date) :=
  map (fun row => (fst row, option_map datetime_date (snd row))) s.

Definition is_NaT (x : option date) : bool :=
  match x with
  | None => true
  | Some _ => false
  end.

Definition IncorrectDateFormatError (format : string) : Error (option column) :=
  {| CODE := Some "INCORRECT_DATE_FORMAT";
     to_dict_method := fun self_CODE s =>
       (parsed <- getattr (to_datetime s format) ;;
        let s := dt_date parsed in
        Ok (form_response self_CODE (Some (select s (apply is_NaT s)))
              [("format", PStr format)]))%py |}.

Definition IncorrectDateTimeFormatError (format : string)
  : Error (option column) :=
  subclass (IncorrectDateFormatError format) "INCORRECT_DATETIME_FORMAT".

(** The column handed to this variant holds the flag "the row's extension is
    supported"; [~s] on [None] is a [TypeError]. *)
Definition ImageFormatNotSupportedError (supported_extensions : list string)
  : Error (option (Series bool)) :=
  {| CODE := Some "IMAGE_FORMAT_NOT_SUPPORTED";
     to_dict_method := fun self_CODE s =>
       match s with
       | None => Raise TypeError
       | Some s =>
           Ok (form_response self_CODE (Some (select s (apply negb s)))
                 [("supported_extensions", PTuple supported_extensions)])
       end |}.

Definition IdentifierNotFoundError : Error (option column) :=
  {| CODE := Some "IDENTIFIER_NOT_FOUND";
     to_dict_method := fun self_CODE s => Ok (form_response self_CODE s []) |}.

Definition BlankNotAllowed : Error (option column) :=
  {| CODE := Some "BLANK_NOT_ALLOWED";
     to_dict_method := fun self_CODE s =>
       (s <- getattr s ;;
        Ok (form_response self_CODE (Some (select s (eq_str s ""))) []))%py |}.

(** ** Constraint descriptors *)

(** What a descriptor is run on: one column, or the whole table
    ([Union[pd.Series, pd.DataFrame]]). *)
Inductive scope : Set :=
| on_column
| on_table.

Definition data_of (k : scope) : Type :=
  match k with
  | on_column => column
  | on_table => DataFrame
  end.

(** Modelled from the spec: [pandasio/validation/validators.py] is not among
    the sources.  A constraint descriptor is one of the five recognized kinds
    (minimum-value, maximum-value, minimum-length, maximum-length,
    fields-must-be-jointly-unique), carrying its [limit_value], or a
    descriptor of some other class; the index says what the descriptor is run
    on (a column, or the whole table for the joint uniqueness of fields). *)
Inductive BaseValidator : scope -> Type :=
| MinValueValidator (limit_value : Z) : BaseValidator on_column
| MaxValueValidator (limit_value : Z) : BaseValidator on_column
| MinLengthValidator (limit_value : Z) : BaseValidator on_column
| MaxLengthValidator (limit_value : Z) : BaseValidator on_column
| UniqueTogetherValidator (limit_value : list string) : BaseValidator on_table
| OtherValidator (class_name : string) (k : scope) : BaseValidator k.

(** ** The accumulator *)

Record FieldValidationErrorManager : Type := {
  errors : list report
}.

(** [field(init=False, default_factory=list)]: every manager starts with a
    list of its own. *)
Definition new_manager : FieldValidationErrorManager := {| errors := [] |}.

(** A method of the manager: it may raise and it may mutate [self]. *)
Definition method (A : Type) : Type :=
  FieldValidationErrorManager -> result A * FieldValidationErrorManager.

Definition evaluate {A} (m : result A) : method A := fun self => (m, self).

Definition then_ {A B} (m : method A) (k : A -> method B) : method B :=
  fun self =>
    match m self with
    | (Ok a, self') => k a self'
    | (Raise e, self') => (Raise e, self')
    end.

(** [self.errors.append(r)] *)
Definition append (r : report) : method unit :=
  fun self => (Ok tt, {| errors := errors self ++ [r] |}).

(** [self.errors.append(error.to_dict(s))]: the report is computed first, so
    a [to_dict] that raises leaves the list untouched. *)
Definition log_error {data} (error : Error data) (s : data) : method unit :=
  then_ (evaluate (to_dict error s)) append.

(** The [isinstance] chain.  The initial [result = {}] is overwritten on every
    path that reaches the final [append]; the [else] branch raises before
    it. *)
Definition log_validator_error {k} (validator : BaseValidator k) (s : data_of k)
  : method unit :=
  then_
    (evaluate
       (match validator in BaseValidator k return data_of k -> result report with
        | MinValueValidator limit_value => fun s =>
            (error <- new (MinValueError limit_value) ;;
             to_dict error (Some s))%py
        | MaxValueValidator limit_value => fun s =>
            (error <- new (MaxValueError limit_value) ;;
             to_dict error (Some s))%py
        | MinLengthValidator limit_value => fun s =>
            (error <- new (MinLengthError limit_value) ;;
             to_dict error (Some s))%py
        | MaxLengthValidator limit_value => fun s =>
            (error <- new (MaxLengthError limit_value) ;;
             to_dict error (Some s))%py
        | UniqueTogetherValidator limit_value => fun s =>
            (error <- new (NonUniqueTogetherError limit_value) ;;
             to_dict error s)%py
        | OtherValidator class_name _ => fun _ =>
            Raise (NotImplementedError
                     ("Support for `" ++ class_name
                        ++ "` validator not implemented yet."))
        end s))
    append.

(** A call of [log_error], and a sequence of calls run one after another on
    the same manager (an exception ends the sequence). *)
Inductive call : Type :=
| Call (data : Type) (error : Error data) (s : data).

Definition run_call (c : call) : method unit :=
  match c with
  | Call error s => log_error error s
  end.

Fixpoint run_calls (cs : list call) : method unit :=
  match cs with
  | [] => fun self => (Ok tt, self)
  | c :: cs' => then_ (run_call c) (fun _ => run_calls cs')
  end.

(** What a call reports, when it reports. *)
Definition call_report (c : call) : result report :=
  match c with
  | Call error s => to_dict error s
  end.

(** ** The detection rules as the specification words them *)

(** [[i for i in c.index if p(c[i])]]: the labels of the rows whose value
    satisfies [p], in the row order of the column. *)
Definition rows_where {A} (p : A -> bool) (s : Series A) : list label :=
  map fst (filter (fun row => p (snd row)) s).

(** [v < limit], [v > limit] for a value that is a number. *)
Definition spec_below (limit : Z) (v : scalar) : bool :=
  match as_number v with
  | Some z => z <? limit
  | None => false
  end.

Definition spec_above (limit : Z) (v : scalar) : bool :=
  match as_number v with
  | Some z => z >? limit
  | None => false
  end.

(** The length of a value as text; only text has one. *)
Definition spec_text_length (v : scalar) : option nat :=
  match v with
  | Str t => Some (String.length t)
  | _ => None
  end.

Definition spec_shorter (limit : Z) (v : scalar) : bool :=
  match spec_text_length v with
  | Some n => Z.of_nat n <? limit
  | None => false
  end.

Definition spec_longer (limit : Z) (v : scalar) : bool :=
  match spec_text_length v with
  | Some n => Z.of_nat n >? limit
  | None => false
  end.

(** A column of numbers: integers, booleans and missing values. *)
Definition numeric_column (c : column) : Prop :=
  Forall (fun row => match snd row with Str _ => False | _ => True end) c.

(** A column of text: text and missing values. *)
Definition text_column (c : column) : Prop :=
  Forall (fun row => match snd row with
                     | Str _ | Null => True
                     | _ => False
                     end) c.

(** A column that holds a text value somewhere. *)
Definition holds_text (c : column) : Prop :=
  exists i t, In (i, Str t) c.

(** "[v], stripped of a leading minus sign, is not composed entirely of
    digits". *)
Definition spec_strip_minus (s : string) : string :=
  match s with
  | EmptyString => s
  | String a s' => if Ascii.eqb a "-" then s' else s
  end.

Definition spec_digits (s : string) : bool :=
  match s with
  | EmptyString => false
  | String a s' => is_digit a && str_forallb is_digit s'
  end.

Definition spec_non_numeric (v : scalar) : bool :=
  negb (spec_digits (spec_strip_minus (str v))).

(** The text starts with two minus signs. *)
Definition double_minus (s : string) : bool :=
  match s with
  | String a (String b _) => Ascii.eqb a "-" && Ascii.eqb b "-"
  | _ => false
  end.

(** No text value of the column starts with two minus signs. *)
Definition single_minus (c : column) : Prop :=
  Forall (fun row => match snd row with
                     | Str t => double_minus t = false
                     | _ => True
                     end) c.

(** The only numeric characters of the text are the digits [0] to [9]. *)
Definition plain_numerals (s : string) : bool :=
  str_forallb (fun a => implb (is_numeric a) (is_digit a)) s.

(** No text value of the column holds a numeric character other than a
    digit. *)
Definition digit_numerals (c : column) : Prop :=
  Forall (fun row => match snd row with
                     | Str t => plain_numerals t = true
                     | _ => True
                     end) c.

(** Two rows agree on [fields]: under every column named in [fields] they
    hold equal values (equal as Python compares them, missing values equal
    to one another). *)
Definition spec_agree (cols fields : list string) (r1 r2 : list scalar) : Prop :=
  forall p name,
    nth_error cols p = Some name -> In name fields ->
    scalar_eqb (nth p r1 Null) (nth p r2 Null) = true.

(** The row at position [k] duplicates an earlier row on [fields]. *)
Definition spec_duplicate (t : DataFrame) (fields : list string) (k : nat)
  : Prop :=
  exists j r_j r_k,
    (j < k)%nat /\
    nth_error (values (rows t)) j = Some r_j /\
    nth_error (values (rows t)) k = Some r_k /\
    spec_agree (columns t) fields r_k r_j.

(** A method that appends the report [produced], or raises what producing it
    raised and leaves the list as it was. *)
Definition appends (m : method unit) (produced : result report) : Prop :=
  forall self,
    m self = match produced with
             | Ok r => (Ok tt, {| errors := errors self ++ [r] |})
             | Raise e => (Raise e, self)
             end.

(** Calling the class gives the instance: [__post_init__] lets it through. *)
Definition constructs {data} (self : Error data) : Prop := new self = Ok self.

End Taxonomy.

Arguments NonNumericValueError {label}.
Arguments FieldRequiredError {label}.
Arguments NullNotAllowedError {label}.
Arguments MinValueError {label} min_value.
Arguments MaxValueError {label} max_value.
Arguments MinLengthError {label} min_value.
Arguments MaxLengthError {label} max_value.
Arguments NonUniqueTogetherError {label} unique_together_fields.
Arguments IncorrectDateFormatError {label datetime date}
  parse_datetime datetime_date format.
Arguments IncorrectDateTimeFormatError {label datetime date}
  parse_datetime datetime_date format.
Arguments ImageFormatNotSupportedError {label} supported_extensions.
Arguments IdentifierNotFoundError {label}.
Arguments BlankNotAllowed {label}.
Arguments new_manager {label}.

#[export] Existing Instance Series_Indexed.
#[export] Existing Instance DataFrame_Indexed.

(** ** Further notions *)

(** [l1] is [l2] with some elements left out, the others in their order. *)
Inductive subseq {A : Type} : list A -> list A -> Prop :=
| subseq_nil : subseq [] []
| subseq_keep (a : A) (l1 l2 : list A) : subseq l1 l2 -> subseq (a :: l1) (a :: l2)
| subseq_skip (a : A) (l1 l2 : list A) : subseq l1 l2 -> subseq l1 (a :: l2).

Fixpoint minus_signs (n : nat) : string :=
  match n with
  | O => EmptyString
  | S n' => String "-" (minus_signs n')
  end.

(** Some minus signs, then at least one numeric character and nothing but
    numeric characters. *)
Definition signed_digits (t : string) : Prop :=
  exists n numerals, t = minus_signs n ++ numerals /\ isnumeric numerals = true.



(** The value is the empty text. *)
Definition is_blank (v : scalar) : bool :=
  match v with
  | Str EmptyString => true
  | _ => false
  end.

(** ** Sample data *)

Module Samples.

(** The column [{0: "5", 1: "abc", 2: "-3"}]. *)
Definition mixed_text : column Z :=
  [(0, Str "5"); (1, Str "abc"); (2, Str "-3")].

(** The column [{0: 1, 1: 10, 2: -1}]. *)
Definition numbers : column Z :=
  [(0, Num 1); (1, Num 10); (2, Num (-1))].

Definition names : column Z :=
  [(0, Str "ab"); (1, Null); (2, Str "abcdef")].

Definition number_then_text : column Z :=
  [(0, Num 1); (1, Str "abc")].

Definition only_text : column Z := [(0, Str "abc")].

Definition only_null : column Z := [(0, Null)].

Definition flags : Series Z bool := [(0, true); (1, false)].

(** The table with rows [(a=1,b=2), (a=1,b=2), (a=1,b=3)]. *)
Definition pairs : DataFrame Z :=
  {| columns := ["a"; "b"];
     rows := [(0, [Num 1; Num 2]); (1, [Num 1; Num 2]); (2, [Num 1; Num 3])] |}.

Definition double_minus_text : column Z := [(0, Str "--3")].


(** A variant whose author wrote the code in lowercase. *)
Definition lowercase_variant : Error Z (option (column Z)) :=
  subclass FieldRequiredError "field_required".

(** A parser to run the date variants with: it knows the one format
    [%Y-%m-%d] and takes a text of the shape [dddd-dd-dd] for a day. *)
Definition day_shape (t : string) : bool :=
  match list_ascii_of_string t with
  | [y1; y2; y3; y4; m_sep; m1; m2; d_sep; d1; d2] =>
      forallb is_digit [y1; y2; y3; y4; m1; m2; d1; d2]
      && Ascii.eqb m_sep "-" && Ascii.eqb d_sep "-"
  | _ => false
  end.

Definition parse_day (format : string) (v : scalar) : option string :=
  match v with
  | Str t => if String.eqb format "%Y-%m-%d" && day_shape t then Some t else None
  | _ => None
  end.

(** Three calls of [log_error] and the reports they produce. *)
Definition calls : list (call Z) :=
  [Call (MinValueError 0) (Some numbers);
   Call FieldRequiredError None;
   Call NonNumericValueError (Some mixed_text)].

Definition reports : list (report Z) :=
  [{| reason := Some "MIN_VALUE"; indexes := [2];
      kwargs := [("limit_value", PInt 0)] |};
   {| reason := Some "FIELD_REQUIRED"; indexes := []; kwargs := [] |};
   {| reason := Some "NON_NUMERIC_VALUE"; indexes := [1]; kwargs := [] |}].

Definition blanks : column Z :=
  [(0, Str ""); (1, Null); (2, Str "x")].

Definition unknown_field : list string := ["a"; "z"].

(** A call that raises between two that do not. *)
Definition calls_with_failure : list (call Z) :=
  [Call (MinValueError 0) (Some numbers);
   Call (MinValueError 0) (Some only_text);
   Call FieldRequiredError None].

Definition all_supported : Series Z bool := [(0, true); (1, true)].

(** The one-character text "one half" (U+00BD). *)
Definition one_half : string := String (ascii_of_nat 189) EmptyString.

Definition fraction : column Z := [(0, Str one_half)].

End Samples.

(** * Properties *)

Section Properties.

Variable label : Type.

Local Abbreviation column := (column label).
Local Abbreviation report := (report label).

(** ** Lists, masks and results *)

Lemma select_map (A : Type) (p : A -> bool) (s : Series label A) :
  select s (map p (values s)) = filter (fun row => p (snd row)) s.
Proof.
  unfold select, values.
  induction s as [|row s IH]; simpl; [reflexivity|].
  destruct (p (snd row)); simpl; rewrite IH; reflexivity.
Qed.

Lemma filter_filter (A : Type) (p q : A -> bool) (l : list A) :
  filter q (filter p l) = filter (fun a => p a && q a) l.
Proof.
  induction l as [|a l IH]; simpl; [reflexivity|].
  destruct (p a); simpl; [destruct (q a)|]; rewrite IH; reflexivity.
Qed.

Lemma filter_ext_Forall (A : Type) (P : A -> Prop) (p q : A -> bool) (l : list A) :
  Forall P l -> (forall a, P a -> p a = q a) -> filter p l = filter q l.
Proof.
  intros Hl Hpq.
  induction Hl as [|a l Ha _ IH]; simpl; [reflexivity|].
  rewrite (Hpq a Ha), IH; reflexivity.
Qed.

Lemma mapM_total (A B : Type) (f : A -> result B) (g : A -> B) (P : A -> Prop)
  (l : list A) :
  Forall P l -> (forall a, P a -> f a = Ok (g a)) -> mapM f l = Ok (map g l).
Proof.
  intros Hl Hf.
  induction Hl as [|a l Ha _ IH]; simpl; [reflexivity|].
  rewrite (Hf a Ha), IH; reflexivity.
Qed.

Lemma Forall_values (P : scalar -> Prop) (c : column) :
  Forall (fun row => P (snd row)) c -> Forall P (values c).
Proof.
  unfold values. intros H. apply Forall_map. exact H.
Qed.

(** ** Comparing a column with a limit *)

Lemma compare_numeric (op : Z -> Z -> bool) (c : column) (limit : Z) :
  numeric_column c ->
  compare op c limit
  = Ok (map (fun v => match as_number v with
                      | Some z => op z limit
                      | None => false
                      end) (values c)).
Proof.
  intros Hc. unfold compare.
  apply mapM_total
    with (P := fun v => match v with Str _ => False | _ => True end).
  - apply Forall_values with (P := fun v => match v with Str _ => False | _ => True end).
    exact Hc.
  - intros [z|t|b|]; simpl; intros H; try reflexivity. contradiction.
Qed.

Lemma compare_text (op : Z -> Z -> bool) (c : column) (limit : Z) :
  holds_text c -> compare op c limit = Raise TypeError.
Proof.
  intros (i & t & Hin). unfold compare, values.
  induction c as [|[j v] c IH]; simpl in *; [contradiction|].
  destruct v as [z|u|b|]; simpl; try reflexivity;
    (destruct Hin as [Heq|Hin]; [discriminate|]); rewrite (IH Hin); reflexivity.
Qed.

Lemma to_dict_compare_numeric (code : string) (op : Z -> Z -> bool)
  (c : column) (limit : Z) :
  numeric_column c ->
  (s <- getattr (Some c) ;;
   mask <- compare op s limit ;;
   Ok (form_response (Some code) (Some (select s mask))
         [("limit_value", PInt limit)]))%py
  = Ok {| reason := Some code;
          indexes := rows_where (fun v => match as_number v with
                                          | Some z => op z limit
                                          | None => false
                                          end) c;
          kwargs := [("limit_value", PInt limit)] |}.
Proof.
  intros Hc. simpl. rewrite (compare_numeric op limit Hc). simpl.
  rewrite select_map. reflexivity.
Qed.

(** ** The text accessor *)

Lemma present_text (c : column) :
  text_column c ->
  Forall (fun x => exists t, x = Str t)
    (filter (fun x => negb (is_null x)) (values c)).
Proof.
  intros Hc. unfold values.
  induction Hc as [|[i v] c Hv _ IH]; simpl in *; [constructor|].
  destruct v as [z|t|b|]; simpl; try contradiction; [|exact IH].
  constructor; [exists t; reflexivity|exact IH].
Qed.

Lemma str_accessor_text (c : column) : text_column c -> str_accessor c = Ok c.
Proof.
  intros Hc. unfold str_accessor.
  destruct (present_text Hc) as [|x present (t & ->) _]; reflexivity.
Qed.

Lemma to_dict_length_text (code : string) (op : Z -> Z -> bool)
  (c : column) (limit : Z) :
  text_column c ->
  (s <- getattr (Some c) ;;
   texts <- str_accessor s ;;
   Ok (form_response (Some code)
         (Some (select s (compare_len op (str_len texts) limit)))
         [("limit_value", PInt limit)]))%py
  = Ok {| reason := Some code;
          indexes := rows_where (fun v => match spec_text_length v with
                                          | Some n => op (Z.of_nat n) limit
                                          | None => false
                                          end) c;
          kwargs := [("limit_value", PInt limit)] |}.
Proof.
  intros Hc. simpl. rewrite (str_accessor_text Hc). simpl.
  unfold compare_len, str_len, apply. rewrite map_map.
  rewrite select_map. unfold form_response, rows_where, index_values, Series_Indexed.
  do 3 f_equal. apply filter_ext_Forall with (P := fun _ => True).
  - apply Forall_forall. trivial.
  - intros [i [z|t|b|]] _; reflexivity.
Qed.

(** ** Text: digits and minus signs *)

Lemma digit_is_not_minus (a : ascii) : is_digit a = true -> Ascii.eqb a "-" = false.
Proof.
  intros Ha. destruct (Ascii.eqb_spec a "-") as [->|_]; [discriminate|reflexivity].
Qed.

Lemma lstrip_single_minus (s : string) :
  double_minus s = false -> lstrip "-" s = spec_strip_minus s.
Proof.
  destruct s as [|a s]; simpl; [reflexivity|].
  rewrite orb_false_r.
  destruct (Ascii.eqb a "-"); [|reflexivity].
  destruct s as [|b s]; simpl; [reflexivity|].
  rewrite orb_false_r. intros ->. reflexivity.
Qed.

Lemma digit_is_numeric (a : ascii) : is_digit a = true -> is_numeric a = true.
Proof. unfold is_digit, is_numeric. intros ->. reflexivity. Qed.

Lemma digits_are_numeric (s : string) :
  str_forallb is_digit s = true -> str_forallb is_numeric s = true.
Proof.
  induction s as [|a s IH]; simpl; [reflexivity|].
  intros H. apply andb_true_iff in H. destruct H as [Ha Hs].
  rewrite (digit_is_numeric a Ha), (IH Hs). reflexivity.
Qed.

Lemma plain_numeric_digits (s : string) :
  plain_numerals s = true -> str_forallb is_numeric s = str_forallb is_digit s.
Proof.
  unfold plain_numerals.
  induction s as [|a s IH]; simpl; [reflexivity|].
  intros H. apply andb_true_iff in H. destruct H as [Ha Hs].
  rewrite (IH Hs). f_equal.
  destruct (is_numeric a) eqn:Hn; simpl in Ha; [symmetry; exact Ha|].
  destruct (is_digit a) eqn:Hd; [|reflexivity].
  rewrite (digit_is_numeric a Hd) in Hn. discriminate.
Qed.

(** Where the digits are the only numeric characters, [isnumeric] is "one or
    more characters, all of them digits". *)
Lemma isnumeric_spec_digits (s : string) :
  plain_numerals s = true -> isnumeric s = spec_digits s.
Proof.
  intros H. destruct s as [|a s]; [reflexivity|].
  unfold isnumeric. rewrite (plain_numeric_digits _ H). reflexivity.
Qed.

Lemma plain_strip_minus (s : string) :
  plain_numerals s = true -> plain_numerals (spec_strip_minus s) = true.
Proof.
  destruct s as [|a s]; [trivial|]. unfold spec_strip_minus.
  destruct (Ascii.eqb a "-"); [|trivial].
  unfold plain_numerals. simpl. intros H.
  apply andb_true_iff in H. exact (proj2 H).
Qed.

Lemma uint_digits (d : Decimal.uint) :
  str_forallb is_digit (NilEmpty.string_of_uint d) = true.
Proof. induction d; simpl; auto. Qed.

Lemma uint_text (d : Decimal.uint) :
  exists a s,
    NilZero.string_of_uint d = String a s /\
    is_digit a = true /\ str_forallb is_digit s = true.
Proof.
  destruct d; simpl;
    eexists; eexists; (split; [reflexivity|split; [reflexivity|]]);
    try reflexivity; apply uint_digits.
Qed.

(** A number prints as digits, after a minus sign when it is negative. *)
Lemma number_text (z : Z) :
  exists a s,
    is_digit a = true /\ str_forallb is_digit s = true /\
    (str (Num z) = String a s \/ str (Num z) = String "-" (String a s)).
Proof.
  unfold str, NilZero.string_of_int.
  destruct (Z.to_int z) as [d|d];
    destruct (uint_text d) as (a & s & -> & Ha & Hs);
    exists a, s; auto.
Qed.

Lemma lstrip_digits (a : ascii) (s : string) :
  is_digit a = true -> lstrip "-" (String a s) = String a s.
Proof.
  intros Ha. cbn [lstrip str_existsb].
  rewrite (digit_is_not_minus a Ha). reflexivity.
Qed.

Lemma number_is_numeric (z : Z) :
  isnumeric (lstrip "-" (str (Num z))) = true /\ spec_non_numeric (Num z) = false.
Proof.
  unfold spec_non_numeric.
  destruct (number_text z) as (a & s & Ha & Hs & [-> | ->]).
  - rewrite (lstrip_digits a s Ha). cbn [isnumeric spec_strip_minus spec_digits str_forallb].
    rewrite (digit_is_not_minus a Ha). cbn [spec_digits].
    rewrite (digit_is_numeric a Ha), (digits_are_numeric s Hs), Ha, Hs.
    split; reflexivity.
  - change (lstrip "-" (String "-" (String a s))) with (lstrip "-" (String a s)).
    rewrite (lstrip_digits a s Ha).
    change (spec_strip_minus (String "-" (String a s))) with (String a s).
    cbn [isnumeric spec_digits str_forallb].
    rewrite (digit_is_numeric a Ha), (digits_are_numeric s Hs), Ha, Hs.
    split; reflexivity.
Qed.

(** On a value that does not start with two minus signs and whose numeric
    characters are digits, the test of the code and the wording of the
    specification agree. *)
Lemma non_numeric_agree (v : scalar) :
  match v with
  | Str t => double_minus t = false /\ plain_numerals t = true
  | _ => True
  end ->
  negb (isnumeric (lstrip "-" (str v))) = spec_non_numeric v.
Proof.
  destruct v as [z|t|[|]|]; intros Hv; try reflexivity.
  - destruct (number_is_numeric z) as [-> ->]. reflexivity.
  - destruct Hv as [Hminus Hplain]. unfold spec_non_numeric. simpl.
    rewrite (lstrip_single_minus t Hminus),
      (isnumeric_spec_digits _ (plain_strip_minus t Hplain)).
    reflexivity.
Qed.

Lemma non_numeric_selection (c : column) :
  to_dict NonNumericValueError (Some c)
  = Ok {| reason := Some "NON_NUMERIC_VALUE";
          indexes :=
            rows_where (fun v => negb (is_null v)
                                 && negb (isnumeric (lstrip "-" (str v)))) c;
          kwargs := [] |}.
Proof.
  unfold to_dict; simpl. unfold form_response, apply, dropna.
  rewrite select_map, filter_filter.
  unfold rows_where, index_values, Series_Indexed.
  do 3 f_equal. apply filter_ext_Forall with (P := fun _ => True).
  - apply Forall_forall; trivial.
  - intros row _. apply andb_comm.
Qed.

(** ** The accumulator *)

Lemma log_error_appends (data : Type) (error : Error label data) (s : data) :
  appends (log_error error s) (to_dict error s).
Proof.
  intros self. unfold log_error, then_, evaluate, append.
  destruct (to_dict error s); reflexivity.
Qed.

Lemma mapM_Forall2 (A B : Type) (f : A -> result B) (l : list A) (bs : list B) :
  mapM f l = Ok bs -> Forall2 (fun a b => f a = Ok b) l bs.
Proof.
  revert bs. induction l as [|a l IH]; simpl; intros bs H.
  - injection H as <-. constructor.
  - destruct (f a) as [b|e] eqn:Hfa; [|discriminate].
    destruct (mapM f l) as [bs'|e]; [|discriminate].
    injection H as <-. constructor; [exact Hfa|apply IH; reflexivity].
Qed.

Lemma run_calls_reports (cs : list (call label)) :
  forall (rs : list report) (self : FieldValidationErrorManager label),
    Forall2 (fun c r => call_report c = Ok r) cs rs ->
    run_calls cs self = (Ok tt, {| errors := errors self ++ rs |}).
Proof.
  induction cs as [|c cs IH]; intros rs self H; inversion H as [|? r ? rs' Hc Hcs]; subst.
  - simpl. rewrite app_nil_r. destruct self; reflexivity.
  - cbn [run_calls]. unfold then_ at 1.
    destruct c as [data error s]. cbn [run_call call_report] in *.
    rewrite (log_error_appends error s self), Hc.
    rewrite (IH rs' _ Hcs). cbn [errors]. rewrite <- app_assoc. reflexivity.
Qed.

(** Whatever happens, the entries already there stay where they are. *)
Lemma run_calls_extends (cs : list (call label)) :
  forall self : FieldValidationErrorManager label,
  exists added,
    snd (run_calls cs self) = {| errors := errors self ++ added |}.
Proof.
  induction cs as [|c cs IH]; intros self.
  - exists []. simpl. rewrite app_nil_r. destruct self; reflexivity.
  - cbn [run_calls]. unfold then_ at 1.
    destruct c as [data error s]. cbn [run_call].
    rewrite (log_error_appends error s self).
    destruct (to_dict error s) as [r|e].
    + destruct (IH {| errors := errors self ++ [r] |}) as (added & Hadded).
      exists (r :: added). rewrite Hadded. cbn [errors].
      rewrite <- app_assoc. reflexivity.
    + exists []. simpl. rewrite app_nil_r. destruct self; reflexivity.
Qed.

(** ** Duplicated rows *)

Lemma named_in (name : string) (fields : list string) :
  existsb (String.eqb name) fields = true <-> In name fields.
Proof.
  rewrite existsb_exists. split.
  - intros (f & Hin & Heq). apply String.eqb_eq in Heq. subst. exact Hin.
  - intros Hin. exists name. split; [exact Hin|apply String.eqb_refl].
Qed.

Lemma nth_tl (p : nat) (r : list scalar) : nth (S p) r Null = nth p (tl r) Null.
Proof. destruct r; [destruct p|]; reflexivity. Qed.

Lemma nth_hd (r : list scalar) : nth 0 r Null = hd Null r.
Proof. destruct r; reflexivity. Qed.

Lemma spec_agree_cons (name : string) (cols fields : list string)
  (r1 r2 : list scalar) :
  spec_agree (name :: cols) fields r1 r2 <->
  (In name fields -> scalar_eqb (hd Null r1) (hd Null r2) = true) /\
  spec_agree cols fields (tl r1) (tl r2).
Proof.
  unfold spec_agree. split.
  - intros H. split.
    + intros Hin. rewrite <- !nth_hd. apply (H 0%nat name); [reflexivity|exact Hin].
    + intros p f Hp Hin. rewrite <- !nth_tl. apply (H (S p) f); assumption.
  - intros [Hhd Htl] [|p] f Hp Hin; simpl in Hp.
    + injection Hp as <-. rewrite !nth_hd. apply Hhd, Hin.
    + rewrite !nth_tl. apply (Htl p f); assumption.
Qed.

(** Comparing the cells kept by [restrict] is agreeing on the fields. *)
Lemma restrict_agree (cols fields : list string) :
  forall r1 r2 : list scalar,
    cells_eqb (restrict cols fields r1) (restrict cols fields r2) = true
    <-> spec_agree cols fields r1 r2.
Proof.
  induction cols as [|name cols IH]; intros r1 r2.
  - simpl. split; [|reflexivity].
    intros _ p f Hp. destruct p; discriminate.
  - rewrite spec_agree_cons, <- IH. cbn [restrict].
    destruct (existsb (String.eqb name) fields) eqn:Hname.
    + apply named_in in Hname. cbn [cells_eqb]. rewrite andb_true_iff. tauto.
    + split; [intros H; split; [|exact H]|tauto].
      intros Hin. apply named_in in Hin. congruence.
Qed.

Lemma mark_duplicates_length (keys : list (list scalar)) :
  forall seen, List.length (mark_duplicates seen keys) = List.length keys.
Proof.
  induction keys as [|key keys IH]; intros seen; simpl; [|rewrite IH]; reflexivity.
Qed.

(** A key is marked when it is among those seen before the scan started or
    equals a key at an earlier position. *)
Lemma mark_duplicates_nth (keys : list (list scalar)) :
  forall (seen : list (list scalar)) (k : nat) (key : list scalar),
    nth_error keys k = Some key ->
    (nth k (mark_duplicates seen keys) false = true <->
     existsb (cells_eqb key) seen = true \/
     exists j key_j,
       (j < k)%nat /\ nth_error keys j = Some key_j /\
       cells_eqb key key_j = true).
Proof.
  induction keys as [|key0 keys IH]; intros seen k key Hk.
  - destruct k; discriminate.
  - destruct k as [|k]; simpl in Hk.
    + injection Hk as <-. simpl. split; [tauto|].
      intros [H|(j & key_j & Hj & _)]; [exact H|lia].
    + cbn [mark_duplicates nth]. rewrite (IH (key0 :: seen) k key Hk).
      cbn [existsb]. rewrite orb_true_iff. split.
      * intros [[H|H]|(j & key_j & Hj & Hnth & Heq)].
        -- right. exists 0%nat, key0. split; [lia|]. split; [reflexivity|exact H].
        -- left. exact H.
        -- right. exists (S j), key_j. split; [lia|]. split; assumption.
      * intros [H|(j & key_j & Hj & Hnth & Heq)]; [left; right; exact H|].
        destruct j as [|j]; simpl in Hnth.
        -- injection Hnth as <-. left. left. exact Heq.
        -- right. exists j, key_j. split; [lia|]. split; assumption.
Qed.

Lemma not_empty (t : DataFrame label) (fields : list string) :
  fields <> [] -> (forall f, In f fields -> In f (columns t)) ->
  empty t = match rows t with [] => true | _ => false end.
Proof.
  intros Hne Hsub. unfold empty.
  destruct (columns t) as [|name cols] eqn:Hcols; [|reflexivity].
  destruct fields as [|f fields]; [congruence|].
  destruct (Hsub f (or_introl eq_refl)).
Qed.

Lemma fields_found (t : DataFrame label) (fields : list string) :
  (forall f, In f fields -> In f (columns t)) ->
  forallb (fun f => existsb (String.eqb f) (columns t)) fields = true.
Proof.
  intros Hsub. apply forallb_forall. intros f Hf. apply named_in, Hsub, Hf.
Qed.

(** ** Construction *)

Lemma new_uppercase (data : Type) (self : Error label data) (code : string) :
  CODE self = Some code -> isupper code = true -> new self = Ok self.
Proof.
  intros Hcode Hupper. unfold new, __post_init__. rewrite Hcode, Hupper. reflexivity.
Qed.

Lemma validator_appends (data : Type) (error : Error label data) (s : data)
  (code : string) (m : method label unit) :
  CODE error = Some code -> isupper code = true ->
  (forall self,
      m self = then_ (evaluate (error <- new error ;; to_dict error s)%py)
                 (@append label) self) ->
  appends m (to_dict error s).
Proof.
  intros Hcode Hupper Hm self. rewrite Hm, (new_uppercase error Hcode Hupper).
  unfold then_, evaluate, append, rbind.
  destruct (to_dict error s); reflexivity.
Qed.

(** * The claims *)

(** C1 (as amended): for every limit, on a column [c] of numbers (integers,
    booleans, missing values) [MinValueError(limit).to_dict(c)] reports
    exactly the indexes [i] with [c[i] < limit] and [MaxValueError] exactly
    those with [c[i] > limit]; on a column [d] of text (text and missing
    values) [MinLengthError] reports exactly the indexes whose text is shorter
    than the limit and [MaxLengthError] exactly those whose text is longer;
    each with [limit_value] set to the limit, and each index sequence in the
    row order of the column. *)
Theorem limit_variants_report_offending_rows (c d : column) (limit : Z) :
  numeric_column c -> text_column d ->
  to_dict (MinValueError limit) (Some c)
  = Ok {| reason := Some "MIN_VALUE";
          indexes := rows_where (spec_below limit) c;
          kwargs := [("limit_value", PInt limit)] |}
  /\ to_dict (MaxValueError limit) (Some c)
     = Ok {| reason := Some "MAX_VALUE";
             indexes := rows_where (spec_above limit) c;
             kwargs := [("limit_value", PInt limit)] |}
  /\ to_dict (MinLengthError limit) (Some d)
     = Ok {| reason := Some "MIN_LENGTH_VALUE";
             indexes := rows_where (spec_shorter limit) d;
             kwargs := [("limit_value", PInt limit)] |}
  /\ to_dict (MaxLengthError limit) (Some d)
     = Ok {| reason := Some "MAX_LENGTH_VALUE";
             indexes := rows_where (spec_longer limit) d;
             kwargs := [("limit_value", PInt limit)] |}.
Proof.
  intros Hc Hd. repeat split.
  - exact (to_dict_compare_numeric "MIN_VALUE" Z.ltb limit Hc).
  - exact (to_dict_compare_numeric "MAX_VALUE" Z.gtb limit Hc).
  - exact (to_dict_length_text "MIN_LENGTH_VALUE" Z.ltb limit Hd).
  - exact (to_dict_length_text "MAX_LENGTH_VALUE" Z.gtb limit Hd).
Qed.

(** C2: for each of the five recognized descriptor kinds,
    [log_validator_error] appends exactly the report that the corresponding
    variant, constructed with the descriptor's [limit_value], produces on the
    same column or table (and raises what producing it raises, appending
    nothing); for a descriptor of any other kind it raises
    [NotImplementedError] and appends nothing. *)
Theorem log_validator_error_dispatch (limit : Z) (fields : list string)
  (s : column) (t : DataFrame label) :
  appends (log_validator_error (MinValueValidator limit) s)
    (to_dict (MinValueError limit) (Some s))
  /\ appends (log_validator_error (MaxValueValidator limit) s)
       (to_dict (MaxValueError limit) (Some s))
  /\ appends (log_validator_error (MinLengthValidator limit) s)
       (to_dict (MinLengthError limit) (Some s))
  /\ appends (log_validator_error (MaxLengthValidator limit) s)
       (to_dict (MaxLengthError limit) (Some s))
  /\ appends (log_validator_error (UniqueTogetherValidator fields) t)
       (to_dict (NonUniqueTogetherError fields) t)
  /\ forall (class_name : string) (k : scope) (s' : data_of label k)
       (self : FieldValidationErrorManager label),
       log_validator_error (OtherValidator class_name k) s' self
       = (Raise (NotImplementedError
                   ("Support for `" ++ class_name
                      ++ "` validator not implemented yet.")),
          self).
Proof.
  repeat split; try (eapply validator_appends; reflexivity).
Qed.

(** C3 (as amended): for every column [c] none of whose text values starts
    with two minus signs or holds a numeric character other than a digit
    (a fraction or a superscript), [NonNumericValueError.to_dict(c)] reports
    exactly the indexes [i] of the rows that are not missing and whose value,
    stripped of a leading minus sign, is not composed entirely of digits; in
    particular for the column [{0: "5", 1: "abc", 2: "-3"}] the reported
    indexes are [[1]]. *)
Theorem non_numeric_reports_present_non_digit_rows (c : column)
  (i0 i1 i2 : label) :
  single_minus c -> digit_numerals c ->
  to_dict NonNumericValueError (Some c)
  = Ok {| reason := Some "NON_NUMERIC_VALUE";
          indexes := rows_where (fun v => negb (is_null v) && spec_non_numeric v) c;
          kwargs := [] |}
  /\ to_dict NonNumericValueError
       (Some [(i0, Str "5"); (i1, Str "abc"); (i2, Str "-3")])
     = Ok {| reason := Some "NON_NUMERIC_VALUE";
             indexes := [i1];
             kwargs := [] |}.
Proof.
  intros Hminus Hplain. split; [|reflexivity].
  rewrite non_numeric_selection. unfold rows_where. do 3 f_equal.
  apply filter_ext_in. intros [i v] Hin.
  unfold single_minus, digit_numerals in *.
  rewrite Forall_forall in Hminus, Hplain.
  specialize (Hminus _ Hin). specialize (Hplain _ Hin). simpl in *.
  rewrite (non_numeric_agree v); [reflexivity|].
  destruct v; auto.
Qed.

(** C6: for every sequence of [log_error] calls on one manager (each of
    which produces its report), each call appends exactly one serialized
    report after the entries already there, and the errors list read back
    afterwards holds the reports in exactly the call order, as many as there
    were calls; no call, whether it returns or raises, modifies or removes an
    entry. *)
Theorem log_error_keeps_call_order (cs : list (call label)) (rs : list report)
  (self : FieldValidationErrorManager label) :
  mapM (@call_report label) cs = Ok rs ->
  run_calls cs self = (Ok tt, {| errors := errors self ++ rs |})
  /\ run_calls cs new_manager = (Ok tt, {| errors := rs |})
  /\ List.length rs = List.length cs
  /\ Forall2 (fun c r =>
                call_report c = Ok r /\
                forall st, run_call c st
                           = (Ok tt, {| errors := errors st ++ [r] |}))
       cs rs
  /\ (forall (cs' : list (call label)) (st : FieldValidationErrorManager label),
       exists added,
         snd (run_calls cs' st) = {| errors := errors st ++ added |}).
Proof.
  intros Hrs. apply mapM_Forall2 in Hrs.
  split; [apply run_calls_reports, Hrs|].
  split; [exact (run_calls_reports (@new_manager label) Hrs)|].
  split; [symmetry; apply (Forall2_length Hrs)|].
  split; [|intros cs' st; apply run_calls_extends].
  induction Hrs as [|c r cs rs Hc _ IH]; constructor; [|exact IH].
  split; [exact Hc|].
  intros st. destruct c as [data error s]. cbn [run_call call_report] in *.
  rewrite (log_error_appends error s st), Hc. reflexivity.
Qed.

(** C7 (as amended): for every table [t] and every non-empty list [fields]
    of columns of [t], [NonUniqueTogetherError(fields).to_dict(t)] reports
    exactly the
    positions of the rows that are duplicates of an earlier row when
    restricted to [fields] (the first occurrence of each combination
    excluded), in row order, plus the extra key
    [unique_together_fields = fields]; for the two-field table with rows
    [(a=1,b=2), (a=1,b=2), (a=1,b=3)] and fields [[a, b]] the indexes are
    [[1]]. *)
Theorem non_unique_reports_later_duplicates (t : DataFrame label)
  (fields : list string) (i0 i1 i2 : label) :
  fields <> [] -> (forall f, In f fields -> In f (columns t)) ->
  (exists mask,
      to_dict (NonUniqueTogetherError fields) t
      = Ok {| reason := Some "NON_UNIQUE_TOGETHER";
              indexes := index_values (select (rows t) mask);
              kwargs := [("unique_together_fields", PList fields)] |}
      /\ List.length mask = List.length (rows t)
      /\ forall k, (k < List.length (rows t))%nat ->
           (nth k mask false = true <-> spec_duplicate t fields k))
  /\ to_dict (NonUniqueTogetherError ["a"; "b"])
       {| columns := ["a"; "b"];
          rows := [(i0, [Num 1; Num 2]); (i1, [Num 1; Num 2]);
                   (i2, [Num 1; Num 3])] |}
     = Ok {| reason := Some "NON_UNIQUE_TOGETHER";
             indexes := [i1];
             kwargs := [("unique_together_fields", PList ["a"; "b"])] |}.
Proof.
  intros Hne Hsub. split; [|reflexivity].
  unfold to_dict. cbn [to_dict_method NonUniqueTogetherError CODE].
  unfold duplicated. rewrite (not_empty t Hne Hsub).
  destruct (rows t) as [|row rest] eqn:Hrows.
  - exists []. split; [|split; [reflexivity|simpl; intros k Hk; lia]].
    cbn [rbind]. unfold getitem_mask. rewrite Hrows. reflexivity.
  - rewrite (fields_found t fields Hsub).
    destruct fields as [|f fields']; [congruence|].
    set (fields := f :: fields') in *.
    set (keys := map (restrict (columns t) fields) (values (row :: rest))).
    assert (Hlen : List.length (mark_duplicates [] keys)
                   = List.length (row :: rest)).
    { rewrite mark_duplicates_length. unfold keys, values.
      rewrite !length_map. reflexivity. }
    exists (mark_duplicates [] keys). split; [|split; [exact Hlen|]].
    + cbn [rbind]. unfold getitem_mask. rewrite Hrows, Hlen, Nat.eqb_refl.
      reflexivity.
    + intros k Hk. unfold spec_duplicate. rewrite Hrows.
      destruct (nth_error (values (row :: rest)) k) as [r_k|] eqn:Hnth.
      2:{ apply nth_error_None in Hnth. unfold values in Hnth.
          rewrite length_map in Hnth. lia. }
      assert (Hkey : nth_error keys k = Some (restrict (columns t) fields r_k)).
      { unfold keys. rewrite nth_error_map, Hnth. reflexivity. }
      rewrite (mark_duplicates_nth keys [] k Hkey). split.
      * intros [H|(j & key_j & Hj & Hnj & Heq)]; [discriminate|].
        unfold keys in Hnj. rewrite nth_error_map in Hnj.
        destruct (nth_error (values (row :: rest)) j) as [r_j|] eqn:Hrj;
          [|discriminate].
        injection Hnj as <-. apply restrict_agree in Heq.
        exists j, r_j, r_k. auto.
      * intros (j & r_j & r_k' & Hj & Hrj & Hrk & Hagree).
        injection Hrk as <-. right.
        exists j, (restrict (columns t) fields r_j).
        split; [exact Hj|]. split; [|apply restrict_agree, Hagree].
        unfold keys. rewrite nth_error_map, Hrj. reflexivity.
Qed.

(** C9: [FieldRequiredError.to_dict] always yields a report whose indexes
    are the empty sequence and whose reason is FIELD_REQUIRED, for every
    column argument, [None] included. *)
Theorem field_required_reports_no_index (s : option column) :
  to_dict FieldRequiredError s
  = Ok {| reason := Some "FIELD_REQUIRED"; indexes := []; kwargs := [] |}.
Proof. reflexivity. Qed.

(** C10: for every column, a row whose value is missing is never among the
    indexes of a [NonNumericValueError] report, even though the text of a
    missing value is not composed of digits: the rows reported are the rows
    picked by the digit test with the missing ones dropped, and the missing
    rows are the ones [NullNotAllowedError] reports. *)
Theorem non_numeric_drops_missing_rows (c : column) :
  exists reported : column,
    to_dict NonNumericValueError (Some c)
    = Ok {| reason := Some "NON_NUMERIC_VALUE";
            indexes := index_values reported;
            kwargs := [] |}
    /\ reported
       = filter (fun row => negb (is_null (snd row)))
           (filter (fun row => negb (isnumeric (lstrip "-" (str (snd row))))) c)
    /\ Forall (fun row => snd row <> Null) reported
    /\ negb (isnumeric (lstrip "-" (str Null))) = true
    /\ to_dict NullNotAllowedError (Some c)
       = Ok {| reason := Some "NULL_NOT_ALLOWED";
               indexes := rows_where is_null c;
               kwargs := [] |}.
Proof.
  eexists. split; [|split; [reflexivity|split; [|split; [reflexivity|]]]].
  - unfold to_dict; simpl. unfold form_response, apply, dropna.
    rewrite select_map. reflexivity.
  - apply Forall_forall. intros [i v] Hin.
    apply filter_In in Hin. destruct Hin as [_ Hv].
    destruct v; simpl in *; congruence.
  - unfold to_dict; simpl. unfold form_response, isnull, apply.
    rewrite select_map. reflexivity.
Qed.

(** ** Dates *)

Section Dates.

Variable datetime : Type.
Variable date : Type.
Variable parse_datetime : string -> scalar -> option datetime.
Variable datetime_date : datetime -> date.

Local Abbreviation DateError :=
  (@IncorrectDateFormatError label _ _ parse_datetime datetime_date).
Local Abbreviation DateTimeError :=
  (@IncorrectDateTimeFormatError label _ _ parse_datetime datetime_date).

(** The rows that fail to parse under [format]. *)
Lemma date_selection (code : option string) (format : string) (c : column) :
  to_dict_method (DateError format) code (Some c)
  = Ok {| reason := code;
          indexes := rows_where (fun v => match parse_datetime format v with
                                          | None => true
                                          | Some _ => false
                                          end) c;
          kwargs := [("format", PStr format)] |}.
Proof.
  simpl. unfold form_response, apply. rewrite select_map.
  unfold rows_where, index_values, Series_Indexed, dt_date.
  do 2 f_equal.
  induction c as [|[i v] c IH]; simpl; [reflexivity|].
  destruct (parse_datetime format v); simpl; rewrite IH; reflexivity.
Qed.

(** C5: constructing a variant whose [CODE] is unset ([None]) or not
    uppercase fails at construction time with an [AssertionError], and
    constructing any of the thirteen shipped variants succeeds, each carrying
    its own non-empty uppercase code, no two alike. *)
Theorem construction_checks_code (limit : Z) (fields exts : list string)
  (format : string) :
  (forall (data : Type) (self : Error label data),
      (CODE self = None ->
       new self = Raise (AssertionError "`CODE` cannot be None."))
      /\ (forall code,
            CODE self = Some code -> isupper code = false ->
            new self = Raise (AssertionError "The `CODE` should be uppercase.")))
  /\ (constructs (@NonNumericValueError label)
      /\ constructs (@FieldRequiredError label)
      /\ constructs (@NullNotAllowedError label)
      /\ constructs (@MinValueError label limit)
      /\ constructs (@MaxValueError label limit)
      /\ constructs (@MinLengthError label limit)
      /\ constructs (@MaxLengthError label limit)
      /\ constructs (@NonUniqueTogetherError label fields)
      /\ constructs (DateError format)
      /\ constructs (DateTimeError format)
      /\ constructs (@ImageFormatNotSupportedError label exts)
      /\ constructs (@IdentifierNotFoundError label)
      /\ constructs (@BlankNotAllowed label))
  /\ [CODE (@NonNumericValueError label); CODE (@FieldRequiredError label);
      CODE (@NullNotAllowedError label); CODE (@MinValueError label limit);
      CODE (@MaxValueError label limit); CODE (@MinLengthError label limit);
      CODE (@MaxLengthError label limit);
      CODE (@NonUniqueTogetherError label fields);
      CODE (DateError format); CODE (DateTimeError format);
      CODE (@ImageFormatNotSupportedError label exts);
      CODE (@IdentifierNotFoundError label); CODE (@BlankNotAllowed label)]
     = map Some
         ["NON_NUMERIC_VALUE"; "FIELD_REQUIRED"; "NULL_NOT_ALLOWED";
          "MIN_VALUE"; "MAX_VALUE"; "MIN_LENGTH_VALUE"; "MAX_LENGTH_VALUE";
          "NON_UNIQUE_TOGETHER"; "INCORRECT_DATE_FORMAT";
          "INCORRECT_DATETIME_FORMAT"; "IMAGE_FORMAT_NOT_SUPPORTED";
          "IDENTIFIER_NOT_FOUND"; "BLANK_NOT_ALLOWED"]
  /\ NoDup
       ["NON_NUMERIC_VALUE"; "FIELD_REQUIRED"; "NULL_NOT_ALLOWED";
        "MIN_VALUE"; "MAX_VALUE"; "MIN_LENGTH_VALUE"; "MAX_LENGTH_VALUE";
        "NON_UNIQUE_TOGETHER"; "INCORRECT_DATE_FORMAT";
        "INCORRECT_DATETIME_FORMAT"; "IMAGE_FORMAT_NOT_SUPPORTED";
        "IDENTIFIER_NOT_FOUND"; "BLANK_NOT_ALLOWED"]
  /\ Forall (fun code => code <> "" /\ isupper code = true)
       ["NON_NUMERIC_VALUE"; "FIELD_REQUIRED"; "NULL_NOT_ALLOWED";
        "MIN_VALUE"; "MAX_VALUE"; "MIN_LENGTH_VALUE"; "MAX_LENGTH_VALUE";
        "NON_UNIQUE_TOGETHER"; "INCORRECT_DATE_FORMAT";
        "INCORRECT_DATETIME_FORMAT"; "IMAGE_FORMAT_NOT_SUPPORTED";
        "IDENTIFIER_NOT_FOUND"; "BLANK_NOT_ALLOWED"].
Proof.
  split; [|split; [|split; [|split]]].
  - intros data self. unfold new, __post_init__. split.
    + intros ->. reflexivity.
    + intros code -> ->. reflexivity.
  - repeat split.
  - reflexivity.
  - repeat constructor; simpl; intuition discriminate.
  - repeat constructor; discriminate.
Qed.

(** C8: for every column and every format string,
    [IncorrectDateTimeFormatError(f).to_dict] produces a report identical to
    that of [IncorrectDateFormatError(f).to_dict] except that its reason is
    INCORRECT_DATETIME_FORMAT instead of INCORRECT_DATE_FORMAT: both select
    the rows that fail to parse under [f] and carry the same [format] key
    (and on [None] both raise alike). *)
Theorem datetime_variant_differs_in_code_only (format : string)
  (s : option column) (c : column) :
  match to_dict (DateError format) s with
  | Ok r =>
      reason r = Some "INCORRECT_DATE_FORMAT" /\
      to_dict (DateTimeError format) s
      = Ok {| reason := Some "INCORRECT_DATETIME_FORMAT";
              indexes := indexes r;
              kwargs := kwargs r |}
  | Raise e => to_dict (DateTimeError format) s = Raise e
  end
  /\ to_dict (DateError format) (Some c)
     = Ok {| reason := Some "INCORRECT_DATE_FORMAT";
             indexes := rows_where (fun v => match parse_datetime format v with
                                             | None => true
                                             | Some _ => false
                                             end) c;
             kwargs := [("format", PStr format)] |}
  /\ to_dict (DateTimeError format) (Some c)
     = Ok {| reason := Some "INCORRECT_DATETIME_FORMAT";
             indexes := rows_where (fun v => match parse_datetime format v with
                                             | None => true
                                             | Some _ => false
                                             end) c;
             kwargs := [("format", PStr format)] |}.
Proof.
  split; [|split].
  - destruct s as [c'|]; [|reflexivity].
    unfold to_dict, IncorrectDateTimeFormatError, subclass.
    cbn [CODE to_dict_method]. change (CODE (DateError format)) with (Some "INCORRECT_DATE_FORMAT").
    rewrite !date_selection. split; reflexivity.
  - exact (date_selection (Some "INCORRECT_DATE_FORMAT") format c).
  - exact (date_selection (Some "INCORRECT_DATETIME_FORMAT") format c).
Qed.

End Dates.

End Properties.

(** * The claims at concrete inputs *)

(** The scenario [{0: 1, 1: 10, 2: -1}] with [MinValueError(0)], and a column
    of names with [MinLengthError(3)]. *)
Lemma limit_variants_report_offending_rows_witness :
  numeric_column Samples.numbers /\ text_column Samples.names
  /\ to_dict (MinValueError 0) (Some Samples.numbers)
     = Ok {| reason := Some "MIN_VALUE"; indexes := [2];
             kwargs := [("limit_value", PInt 0)] |}
  /\ to_dict (MinLengthError 3) (Some Samples.names)
     = Ok {| reason := Some "MIN_LENGTH_VALUE"; indexes := [0];
             kwargs := [("limit_value", PInt 3)] |}.
Proof.
  assert (Hc : numeric_column Samples.numbers) by (repeat constructor).
  assert (Hd : text_column Samples.names) by (repeat constructor).
  split; [exact Hc|]. split; [exact Hd|].
  destruct (@limit_variants_report_offending_rows Z
              Samples.numbers Samples.names 0 Hc Hd) as (Hmin & _).
  destruct (@limit_variants_report_offending_rows Z
              Samples.numbers Samples.names 3 Hc Hd) as (_ & _ & Hlen & _).
  split; [exact Hmin|exact Hlen].
Defined.

(** [MinValueError] on a column of text raises instead of reporting, and so
    does [MinLengthError] on a column of numbers. *)
Lemma limit_variants_raise_off_type :
  to_dict (MinValueError 0) (Some Samples.only_text) = Raise TypeError
  /\ to_dict (MinLengthError 1) (Some Samples.numbers) = Raise AttributeError
  /\ ~ (exists r,
          to_dict (MinValueError 0) (Some Samples.only_text) = Ok r
          /\ indexes r = rows_where (spec_below 0) Samples.only_text)
  /\ ~ (exists r,
          to_dict (MinLengthError 1) (Some Samples.numbers) = Ok r
          /\ indexes r = rows_where (spec_shorter 1) Samples.numbers).
Proof.
  split; [reflexivity|]. split; [reflexivity|].
  split; intros (r & Hr & _); discriminate Hr.
Qed.

Lemma non_numeric_reports_present_non_digit_rows_witness :
  single_minus Samples.mixed_text /\ digit_numerals Samples.mixed_text
  /\ to_dict NonNumericValueError (Some Samples.mixed_text)
     = Ok {| reason := Some "NON_NUMERIC_VALUE"; indexes := [1]; kwargs := [] |}.
Proof.
  assert (Hm : single_minus Samples.mixed_text) by (repeat constructor).
  assert (Hp : digit_numerals Samples.mixed_text) by (repeat constructor).
  split; [exact Hm|]. split; [exact Hp|].
  exact (proj1 (@non_numeric_reports_present_non_digit_rows Z
                  Samples.mixed_text 0 1 2 Hm Hp)).
Defined.

(** A missing value, whose text is not composed of digits, is not reported;
    neither is the text "one half", which [isnumeric] takes for a number
    though it holds no digit. *)
Lemma non_numeric_skips_null_and_fraction :
  (spec_non_numeric Null = true
   /\ rows_where spec_non_numeric Samples.only_null = [0]
   /\ to_dict NonNumericValueError (Some Samples.only_null)
      = Ok {| reason := Some "NON_NUMERIC_VALUE"; indexes := []; kwargs := [] |}
   /\ ~ (exists r,
           to_dict NonNumericValueError (Some Samples.only_null) = Ok r
           /\ indexes r = rows_where spec_non_numeric Samples.only_null))
  /\ (spec_non_numeric (Str Samples.one_half) = true
      /\ rows_where spec_non_numeric Samples.fraction = [0]
      /\ to_dict NonNumericValueError (Some Samples.fraction)
         = Ok {| reason := Some "NON_NUMERIC_VALUE"; indexes := [];
                 kwargs := [] |}
      /\ ~ (exists r,
              to_dict NonNumericValueError (Some Samples.fraction) = Ok r
              /\ indexes r = rows_where spec_non_numeric Samples.fraction)).
Proof.
  split; repeat split; intros (r & Hr & Hi); injection Hr as <-; discriminate Hi.
Qed.

(** [lstrip] drops every leading minus sign: ["--3"] passes as numeric. *)
Example double_minus_passes_as_numeric :
  spec_non_numeric (Str "--3") = true
  /\ to_dict NonNumericValueError (Some Samples.double_minus_text)
     = Ok {| reason := Some "NON_NUMERIC_VALUE"; indexes := []; kwargs := [] |}.
Proof. split; reflexivity. Qed.

Lemma construction_checks_code_witness :
  CODE Samples.lowercase_variant = Some "field_required"
  /\ isupper "field_required" = false
  /\ new Samples.lowercase_variant
     = Raise (AssertionError "The `CODE` should be uppercase.").
Proof.
  split; [reflexivity|]. split; [reflexivity|].
  exact (proj2 (proj1 (@construction_checks_code Z string string
                         Samples.parse_day (fun d => d) 0 [] [] "%Y-%m-%d")
                  _ Samples.lowercase_variant)
           "field_required" eq_refl eq_refl).
Defined.

Lemma log_error_keeps_call_order_witness :
  mapM (@call_report Z) Samples.calls = Ok Samples.reports
  /\ run_calls Samples.calls new_manager = (Ok tt, {| errors := Samples.reports |})
  /\ List.length Samples.reports = 3%nat.
Proof.
  assert (H : mapM (@call_report Z) Samples.calls = Ok Samples.reports)
    by reflexivity.
  split; [exact H|].
  destruct (@log_error_keeps_call_order Z Samples.calls Samples.reports
              new_manager H) as (_ & Hrun & Hlen & _).
  split; [exact Hrun|exact Hlen].
Defined.

Lemma non_unique_reports_later_duplicates_witness :
  ["a"; "b"] <> []
  /\ (forall f, In f ["a"; "b"] -> In f (columns Samples.pairs))
  /\ to_dict (NonUniqueTogetherError ["a"; "b"]) Samples.pairs
     = Ok {| reason := Some "NON_UNIQUE_TOGETHER"; indexes := [1];
             kwargs := [("unique_together_fields", PList ["a"; "b"])] |}.
Proof.
  assert (Hne : ["a"; "b"] <> @nil string) by discriminate.
  assert (Hsub : forall f, In f ["a"; "b"] -> In f (columns Samples.pairs))
    by (intros f Hf; exact Hf).
  split; [exact Hne|]. split; [exact Hsub|].
  exact (proj2 (@non_unique_reports_later_duplicates Z Samples.pairs
                  ["a"; "b"] 0 1 2 Hne Hsub)).
Defined.

(** * Further properties of the variants and of the accumulator *)

Section Further.

Variable label : Type.

Local Abbreviation column := (column label).
Local Abbreviation report := (report label).

(** ** Subsequences *)

Lemma subseq_refl (A : Type) (l : list A) : subseq l l.
Proof. induction l; constructor; assumption. Qed.

Lemma subseq_trans (A : Type) (l1 l2 l3 : list A) :
  subseq l1 l2 -> subseq l2 l3 -> subseq l1 l3.
Proof.
  intros H12 H23. revert l1 H12.
  induction H23 as [|a l2 l3 _ IH|a l2 l3 _ IH]; intros l1 H12.
  - exact H12.
  - inversion H12; subst; constructor; apply IH; assumption.
  - constructor. apply IH, H12.
Qed.

Lemma subseq_map (A B : Type) (f : A -> B) (l1 l2 : list A) :
  subseq l1 l2 -> subseq (map f l1) (map f l2).
Proof. induction 1; simpl; constructor; assumption. Qed.

Lemma subseq_filter (A : Type) (p : A -> bool) (l : list A) :
  subseq (filter p l) l.
Proof.
  induction l as [|a l IH]; simpl; [constructor|].
  destruct (p a); constructor; exact IH.
Qed.

Lemma subseq_filter_imp (A : Type) (p q : A -> bool) (l : list A) :
  (forall a, In a l -> p a = true -> q a = true) ->
  subseq (filter p l) (filter q l).
Proof.
  induction l as [|a l IH]; intros Hpq; simpl; [constructor|].
  assert (IH' : subseq (filter p l) (filter q l))
    by (apply IH; intros b Hb; apply Hpq; right; exact Hb).
  destruct (p a) eqn:Hp.
  - rewrite (Hpq a (or_introl eq_refl) Hp). constructor. exact IH'.
  - destruct (q a); [constructor|]; exact IH'.
Qed.

Lemma subseq_empty (A : Type) (l : list A) : subseq [] l.
Proof. induction l; constructor; assumption. Qed.

Lemma subseq_length (A : Type) (l1 l2 : list A) :
  subseq l1 l2 -> (List.length l1 <= List.length l2)%nat.
Proof. induction 1; simpl; lia. Qed.

(** Whatever the mask, a selection leaves rows out and keeps the order. *)
Lemma subseq_select (A : Type) (s : Series label A) :
  forall mask, subseq (select s mask) s.
Proof.
  unfold select.
  induction s as [|row s IH]; intros mask; simpl; [constructor|].
  destruct mask as [|b mask]; simpl.
  - apply subseq_empty.
  - destruct b; simpl; constructor; apply IH.
Qed.

Lemma subseq_index_select (A : Type) (s : Series label A) (mask : list bool) :
  subseq (index_values (select s mask)) (index_values s).
Proof. apply subseq_map, subseq_select. Qed.

(** ** Rows and labels *)

Lemma in_rows_where (A : Type) (p : A -> bool) (s : Series label A) (i : label) :
  In i (rows_where p s) -> exists v, In (i, v) s /\ p v = true.
Proof.
  unfold rows_where. intros Hin. apply in_map_iff in Hin.
  destruct Hin as ([j v] & Hj & Hin). simpl in Hj. subst j.
  apply filter_In in Hin. exists v. exact Hin.
Qed.

(** With labels that do not repeat, a label stands for one row. *)
Lemma unique_row (A : Type) (s : Series label A) (i : label) (v w : A) :
  NoDup (map fst s) -> In (i, v) s -> In (i, w) s -> v = w.
Proof.
  induction s as [|[j u] s IH]; simpl; intros Hnd Hv Hw; [contradiction|].
  inversion Hnd as [|? ? Hnot Hnd']; subst.
  destruct Hv as [Hv|Hv], Hw as [Hw|Hw].
  - congruence.
  - injection Hv as -> ->. exfalso. apply Hnot.
    apply in_map_iff. exists (i, w). split; [reflexivity|exact Hw].
  - injection Hw as -> ->. exfalso. apply Hnot.
    apply in_map_iff. exists (i, v). split; [reflexivity|exact Hv].
  - apply IH; assumption.
Qed.

Lemma rows_where_exclusive (A : Type) (p q : A -> bool) (s : Series label A)
  (i : label) :
  NoDup (map fst s) ->
  (forall v, p v = true -> q v = true -> False) ->
  In i (rows_where p s) -> ~ In i (rows_where q s).
Proof.
  intros Hnd Hpq Hp Hq.
  apply in_rows_where in Hp. destruct Hp as (v & Hv & Hpv).
  apply in_rows_where in Hq. destruct Hq as (w & Hw & Hqw).
  rewrite (@unique_row A s i v w Hnd Hv Hw) in Hpv. exact (Hpq w Hpv Hqw).
Qed.

(** ** What the selecting variants report *)

Lemma blank_selection (c : column) :
  to_dict BlankNotAllowed (Some c)
  = Ok {| reason := Some "BLANK_NOT_ALLOWED";
          indexes := rows_where is_blank c;
          kwargs := [] |}.
Proof.
  unfold to_dict; simpl. unfold form_response, eq_str, apply.
  rewrite select_map. unfold rows_where, index_values, Series_Indexed.
  do 3 f_equal. apply filter_ext_Forall with (P := fun _ => True).
  - apply Forall_forall; trivial.
  - intros [i [z|[|a t]|b|]] _; reflexivity.
Qed.

Lemma null_selection (c : column) :
  to_dict NullNotAllowedError (Some c)
  = Ok {| reason := Some "NULL_NOT_ALLOWED";
          indexes := rows_where is_null c;
          kwargs := [] |}.
Proof.
  unfold to_dict; simpl. unfold form_response, isnull, apply.
  rewrite select_map. reflexivity.
Qed.

Lemma image_selection (exts : list string) (flags : Series label bool) :
  to_dict (ImageFormatNotSupportedError exts) (Some flags)
  = Ok {| reason := Some "IMAGE_FORMAT_NOT_SUPPORTED";
          indexes := rows_where negb flags;
          kwargs := [("supported_extensions", PTuple exts)] |}.
Proof.
  unfold to_dict; simpl. unfold form_response, apply.
  rewrite select_map. reflexivity.
Qed.

(** ** Leading minus signs *)

Lemma lstrip_minus_signs (n : nat) (t : string) :
  lstrip "-" (minus_signs n ++ t) = lstrip "-" t.
Proof. induction n as [|n IH]; simpl; [reflexivity|exact IH]. Qed.

(** A text is its leading minus signs followed by what [lstrip] leaves. *)
Lemma lstrip_minus_split (t : string) :
  exists n, t = minus_signs n ++ lstrip "-" t.
Proof.
  induction t as [|a t (n & IH)]; [exists 0%nat; reflexivity|].
  cbn [lstrip str_existsb]. rewrite orb_false_r.
  destruct (Ascii.eqb_spec a "-") as [->|_].
  - exists (S n). simpl. rewrite <- IH. reflexivity.
  - exists 0%nat. reflexivity.
Qed.

Lemma numeric_is_not_minus (a : ascii) :
  is_numeric a = true -> Ascii.eqb a "-" = false.
Proof.
  intros Ha. destruct (Ascii.eqb_spec a "-") as [->|_]; [discriminate|reflexivity].
Qed.

Lemma numerals_not_stripped (numerals : string) :
  isnumeric numerals = true -> lstrip "-" numerals = numerals.
Proof.
  destruct numerals as [|a t]; [reflexivity|]. cbn [isnumeric str_forallb].
  intros H. apply andb_true_iff in H. destruct H as [Ha _].
  cbn [lstrip str_existsb]. rewrite (numeric_is_not_minus a Ha). reflexivity.
Qed.

Lemma passes_iff_signed_digits (t : string) :
  isnumeric (lstrip "-" t) = true <-> signed_digits t.
Proof.
  split.
  - intros H. destruct (lstrip_minus_split t) as (n & Hn).
    exists n, (lstrip "-" t). split; [exact Hn|exact H].
  - intros (n & numerals & -> & Hd).
    rewrite lstrip_minus_signs, (numerals_not_stripped numerals Hd).
    exact Hd.
Qed.

(** ** More on the variants *)

(** X1: [BlankNotAllowed] reports exactly the rows holding the empty text
    and [NullNotAllowedError] exactly the rows holding a missing value; when
    the labels of the column do not repeat, no index is in both reports. *)
Theorem blank_is_not_null (c : column) :
  NoDup (index_values c) ->
  exists blank null : report,
    to_dict BlankNotAllowed (Some c) = Ok blank
    /\ to_dict NullNotAllowedError (Some c) = Ok null
    /\ indexes blank = rows_where is_blank c
    /\ indexes null = rows_where is_null c
    /\ forall i, In i (indexes blank) -> ~ In i (indexes null).
Proof.
  intros Hnd. eexists. eexists.
  split; [apply blank_selection|]. split; [apply null_selection|].
  split; [reflexivity|]. split; [reflexivity|].
  intros i. cbn [indexes]. apply rows_where_exclusive; [exact Hnd|].
  intros [z|[|a t]|b|]; discriminate.
Qed.

(** X2: [ImageFormatNotSupportedError] reports exactly the rows whose flag is
    false, with the supported extensions attached; when every flag is true
    the report is empty. *)
Theorem image_reports_unsupported_rows (exts : list string)
  (flags : Series label bool) :
  to_dict (ImageFormatNotSupportedError exts) (Some flags)
  = Ok {| reason := Some "IMAGE_FORMAT_NOT_SUPPORTED";
          indexes := rows_where negb flags;
          kwargs := [("supported_extensions", PTuple exts)] |}
  /\ (Forall (fun row => snd row = true) flags ->
      to_dict (ImageFormatNotSupportedError exts) (Some flags)
      = Ok {| reason := Some "IMAGE_FORMAT_NOT_SUPPORTED";
              indexes := [];
              kwargs := [("supported_extensions", PTuple exts)] |}).
Proof.
  split; [apply image_selection|].
  intros Hall. rewrite image_selection. do 2 f_equal.
  unfold rows_where.
  induction Hall as [|[i b] flags Hb _ IH]; simpl in *; [reflexivity|].
  rewrite Hb. exact IH.
Qed.

(** X3: [NonNumericValueError] never reports an integer, whatever its sign,
    nor a missing value; it always reports a boolean; and it reports a text
    exactly when the text is not some minus signs followed by one or more
    numeric characters, as [str.isnumeric] knows them (so ["-3"], ["--3"]
    and the text "one half" pass, [""], ["-"] and ["3-"] do not). *)
Theorem non_numeric_accepts_signed_digits (c : column) :
  to_dict NonNumericValueError (Some c)
  = Ok {| reason := Some "NON_NUMERIC_VALUE";
          indexes :=
            rows_where (fun v => match v with
                                 | Num _ | Null => false
                                 | Bool _ => true
                                 | Str t => negb (isnumeric (lstrip "-" t))
                                 end) c;
          kwargs := [] |}
  /\ (forall t, isnumeric (lstrip "-" t) = true <-> signed_digits t)
  /\ signed_digits "-3" /\ signed_digits "--3"
  /\ signed_digits (String (ascii_of_nat 189) EmptyString)
  /\ ~ signed_digits "" /\ ~ signed_digits "-" /\ ~ signed_digits "3-".
Proof.
  split; [|split; [exact passes_iff_signed_digits|]].
  - rewrite non_numeric_selection. unfold rows_where. do 3 f_equal.
    apply filter_ext_Forall with (P := fun _ => True);
      [apply Forall_forall; trivial|].
    intros [i [z|t|[|]|]] _; try reflexivity.
    cbn [snd is_null negb andb]. destruct (number_is_numeric z) as [-> _].
    reflexivity.
  - repeat split;
      try (apply passes_iff_signed_digits; reflexivity);
      intros H; apply passes_iff_signed_digits in H; discriminate H.
Qed.

(** X4: on a column of numbers whose labels do not repeat, with [lo <= hi],
    no index is reported both by [MinValueError(lo)] and by
    [MaxValueError(hi)]. *)
Theorem value_limits_exclusive (c : column) (lo hi : Z) :
  numeric_column c -> NoDup (index_values c) -> lo <= hi ->
  exists below above : report,
    to_dict (MinValueError lo) (Some c) = Ok below
    /\ to_dict (MaxValueError hi) (Some c) = Ok above
    /\ forall i, In i (indexes below) -> ~ In i (indexes above).
Proof.
  intros Hc Hnd Hlimits. eexists. eexists.
  split; [exact (to_dict_compare_numeric "MIN_VALUE" Z.ltb lo Hc)|].
  split; [exact (to_dict_compare_numeric "MAX_VALUE" Z.gtb hi Hc)|].
  intros i. cbn [indexes]. apply rows_where_exclusive; [exact Hnd|].
  intros v Hlo Hhi. destruct (as_number v) as [z|]; [|discriminate].
  apply Z.ltb_lt in Hlo. apply Z.gtb_lt in Hhi. lia.
Qed.

(** X5: on a column of text, every row reported by [BlankNotAllowed] is also
    reported by [MinLengthError(limit)] as soon as [limit >= 1], in the same
    order. *)
Theorem blank_rows_are_too_short (c : column) (limit : Z) :
  text_column c -> 1 <= limit ->
  exists blank short : report,
    to_dict BlankNotAllowed (Some c) = Ok blank
    /\ to_dict (MinLengthError limit) (Some c) = Ok short
    /\ subseq (indexes blank) (indexes short).
Proof.
  intros Hc Hlimit. eexists. eexists.
  split; [apply blank_selection|].
  split; [exact (to_dict_length_text "MIN_LENGTH_VALUE" Z.ltb limit Hc)|].
  cbn [indexes]. unfold rows_where. apply subseq_map, subseq_filter_imp.
  intros [i [z|[|a t]|b|]] _; try discriminate.
  intros _. cbn. apply Z.ltb_lt. lia.
Qed.

(** ** More on the accumulator *)

Lemma run_calls_app (cs1 cs2 : list (call label))
  (self : FieldValidationErrorManager label) :
  run_calls (cs1 ++ cs2) self
  = match run_calls cs1 self with
    | (Ok _, self') => run_calls cs2 self'
    | (Raise e, self') => (Raise e, self')
    end.
Proof.
  revert self. induction cs1 as [|c cs1 IH]; intros self; [reflexivity|].
  cbn [app run_calls]. unfold then_.
  destruct (run_call c self) as [[[]|e] self']; [apply IH|reflexivity].
Qed.

(** X6: a validation that raises records nothing: [log_validator_error] with
    a minimum-value or maximum-value descriptor on a column holding a text
    value raises [TypeError], and with a joint-uniqueness descriptor naming a
    field that is no column of a non-empty table raises [KeyError]; in both
    cases the list of errors is left as it was. *)
Theorem failed_validation_records_nothing (s : column) (t : DataFrame label)
  (limit : Z) (fields : list string)
  (self : FieldValidationErrorManager label) :
  (holds_text s ->
   log_validator_error (MinValueValidator limit) s self = (Raise TypeError, self)
   /\ log_validator_error (MaxValueValidator limit) s self
      = (Raise TypeError, self))
  /\ (rows t <> [] -> columns t <> [] ->
      (exists f, In f fields /\ ~ In f (columns t)) ->
      log_validator_error (UniqueTogetherValidator fields) t self
      = (Raise KeyError, self)).
Proof.
  split.
  - intros Hs. split.
    + rewrite (@validator_appends label _ (MinValueError limit) (Some s)
                 "MIN_VALUE" (log_validator_error (MinValueValidator limit) s)
                 eq_refl eq_refl (fun _ => eq_refl) self).
      unfold to_dict; simpl. rewrite (compare_text Z.ltb limit Hs). reflexivity.
    + rewrite (@validator_appends label _ (MaxValueError limit) (Some s)
                 "MAX_VALUE" (log_validator_error (MaxValueValidator limit) s)
                 eq_refl eq_refl (fun _ => eq_refl) self).
      unfold to_dict; simpl. rewrite (compare_text Z.gtb limit Hs). reflexivity.
  - intros Hrows Hcols (f & Hf & Hmissing).
    rewrite (@validator_appends label _ (NonUniqueTogetherError fields) t
               "NON_UNIQUE_TOGETHER"
               (log_validator_error (UniqueTogetherValidator fields) t)
               eq_refl eq_refl (fun _ => eq_refl) self).
    unfold to_dict; simpl. unfold duplicated, empty.
    destruct (columns t) as [|name cols] eqn:Hc; [congruence|].
    destruct (rows t) as [|row rest]; [congruence|].
    destruct (forallb (fun f0 => existsb (String.eqb f0) (name :: cols)) fields)
      eqn:Hall; [|reflexivity].
    exfalso. apply Hmissing.
    rewrite forallb_forall in Hall. apply named_in, Hall, Hf.
Qed.

(** X7: in a sequence of [log_error] calls, the first call that raises ends
    the sequence: the exception comes out, the reports of the calls before
    it are in the list, in order, and nothing of the calls after it is. *)
Theorem failing_call_ends_the_sequence (before after : list (call label))
  (c : call label) (rs : list report) (e : exn)
  (self : FieldValidationErrorManager label) :
  mapM (@call_report label) before = Ok rs ->
  call_report c = Raise e ->
  run_calls (before ++ c :: after) self
  = (Raise e, {| errors := errors self ++ rs |}).
Proof.
  intros Hbefore Hc. apply mapM_Forall2 in Hbefore.
  rewrite run_calls_app, (run_calls_reports self Hbefore).
  cbn [run_calls]. unfold then_ at 1.
  destruct c as [data error s]. cbn [run_call call_report] in *.
  rewrite (log_error_appends error s _), Hc. reflexivity.
Qed.

(** ** More on duplicated rows *)

Lemma restrict_same_fields (fields1 fields2 : list string) :
  (forall f, In f fields1 <-> In f fields2) ->
  forall (cols : list string) (row : list scalar),
    restrict cols fields1 row = restrict cols fields2 row.
Proof.
  intros Hsame cols.
  assert (Hname : forall name,
             existsb (String.eqb name) fields1 = existsb (String.eqb name) fields2).
  { intros name.
    destruct (existsb (String.eqb name) fields1) eqn:H1;
      destruct (existsb (String.eqb name) fields2) eqn:H2; try reflexivity.
    - apply named_in, Hsame, named_in in H1. congruence.
    - apply named_in, Hsame, named_in in H2. congruence. }
  induction cols as [|name cols IH]; intros row; simpl; [reflexivity|].
  rewrite Hname, !IH. reflexivity.
Qed.

Lemma duplicated_same_fields (t : DataFrame label) (fields1 fields2 : list string) :
  (forall f, In f fields1 <-> In f fields2) ->
  duplicated t fields1 = duplicated t fields2.
Proof.
  intros Hsame. unfold duplicated.
  destruct (empty t); [reflexivity|].
  assert (Hfound : forallb (fun f => existsb (String.eqb f) (columns t)) fields1
                   = forallb (fun f => existsb (String.eqb f) (columns t)) fields2).
  { destruct (forallb _ fields1) eqn:H1; destruct (forallb _ fields2) eqn:H2;
      try reflexivity.
    - rewrite forallb_forall in H1.
      assert (H : forallb (fun f => existsb (String.eqb f) (columns t)) fields2
                  = true)
        by (apply forallb_forall; intros f Hf; apply H1, Hsame, Hf).
      congruence.
    - rewrite forallb_forall in H2.
      assert (H : forallb (fun f => existsb (String.eqb f) (columns t)) fields1
                  = true)
        by (apply forallb_forall; intros f Hf; apply H2, Hsame, Hf).
      congruence. }
  rewrite Hfound.
  destruct (forallb _ fields2); [|reflexivity].
  destruct fields1 as [|f1 fields1], fields2 as [|f2 fields2].
  - reflexivity.
  - destruct (proj2 (Hsame f2) (or_introl eq_refl)).
  - destruct (proj1 (Hsame f1) (or_introl eq_refl)).
  - do 2 f_equal. apply map_ext. intros row.
    apply restrict_same_fields, Hsame.
Qed.

(** X8: which rows [NonUniqueTogetherError] reports depends on the fields
    listed, not on their order or on a field being listed twice: two lists
    with the same members give the same indexes, or raise alike. *)
Theorem field_order_is_irrelevant (t : DataFrame label)
  (fields1 fields2 : list string) :
  (forall f, In f fields1 <-> In f fields2) ->
  match to_dict (NonUniqueTogetherError fields1) t,
        to_dict (NonUniqueTogetherError fields2) t with
  | Ok r1, Ok r2 => indexes r1 = indexes r2
  | Raise e1, Raise e2 => e1 = e2
  | _, _ => False
  end.
Proof.
  intros Hsame. unfold to_dict. cbn [to_dict_method NonUniqueTogetherError CODE].
  rewrite (@duplicated_same_fields t fields1 fields2 Hsame).
  destruct (duplicated t fields2) as [mask|e]; cbn [rbind]; [|reflexivity].
  destruct (getitem_mask t mask); reflexivity.
Qed.

(** X9: [NonUniqueTogetherError] with a field that is no column of a
    non-empty table raises [KeyError]. *)
Theorem unknown_field_is_a_key_error (t : DataFrame label)
  (fields : list string) :
  rows t <> [] -> columns t <> [] ->
  (exists f, In f fields /\ ~ In f (columns t)) ->
  to_dict (NonUniqueTogetherError fields) t = Raise KeyError.
Proof.
  intros Hrows Hcols (f & Hf & Hmissing).
  unfold to_dict; simpl. unfold duplicated, empty.
  destruct (columns t) as [|name cols] eqn:Hc; [congruence|].
  destruct (rows t) as [|row rest]; [congruence|].
  destruct (forallb (fun f0 => existsb (String.eqb f0) (name :: cols)) fields)
    eqn:Hall; [|reflexivity].
  exfalso. apply Hmissing.
  rewrite forallb_forall in Hall. apply named_in, Hall, Hf.
Qed.

(** X10: [NonUniqueTogetherError] never reports the first row of the table:
    the indexes are drawn from the rows after it, so there are fewer of them
    than rows. *)
Theorem first_row_is_never_reported (t : DataFrame label)
  (fields : list string) (i : label) (r0 : list scalar)
  (rest : Series label (list scalar)) :
  rows t = (i, r0) :: rest ->
  fields <> [] -> (forall f, In f fields -> In f (columns t)) ->
  exists (mask : list bool) (r : report),
    to_dict (NonUniqueTogetherError fields) t = Ok r
    /\ indexes r = index_values (select rest mask)
    /\ subseq (indexes r) (index_values rest)
    /\ (List.length (indexes r) < List.length (rows t))%nat.
Proof.
  intros Hrows Hne Hsub.
  unfold to_dict. cbn [to_dict_method NonUniqueTogetherError CODE].
  unfold duplicated. rewrite (not_empty t Hne Hsub), Hrows.
  rewrite (fields_found t fields Hsub).
  destruct fields as [|f fields']; [congruence|].
  set (fields := f :: fields') in *.
  set (keys := map (restrict (columns t) fields) (values rest)).
  exists (mark_duplicates [restrict (columns t) fields r0] keys).
  eexists. split.
  - cbn [values map mark_duplicates existsb rbind]. unfold getitem_mask.
    rewrite Hrows. cbn [List.length]. fold keys.
    rewrite mark_duplicates_length. unfold keys, values.
    rewrite !length_map, Nat.eqb_refl. cbn [rbind]. reflexivity.
  - split; [reflexivity|].
    match goal with
    | |- subseq ?x _ /\ _ =>
        change x
          with (index_values
                  (select rest
                     (mark_duplicates [restrict (columns t) fields r0] keys)))
    end.
    assert (Hsel : subseq (index_values
                             (select rest
                                (mark_duplicates [restrict (columns t) fields r0]
                                   keys)))
                     (index_values rest))
      by apply subseq_index_select.
    split; [exact Hsel|].
    apply subseq_length in Hsel.
    unfold index_values, Series_Indexed in *. rewrite !length_map in *.
    cbn [List.length]. lia.
Qed.

(** ** When the text accessor is granted *)








(** ** Every variant at once *)

Section FurtherDates.

Variable datetime : Type.
Variable date : Type.
Variable parse_datetime : string -> scalar -> option datetime.
Variable datetime_date : datetime -> date.

Local Abbreviation DateError :=
  (@IncorrectDateFormatError label _ _ parse_datetime datetime_date).
Local Abbreviation DateTimeError :=
  (@IncorrectDateTimeFormatError label _ _ parse_datetime datetime_date).

Lemma dt_date_index (parsed : Series label (option datetime)) :
  index_values (dt_date datetime_date parsed) = index_values parsed.
Proof.
  unfold index_values, Series_Indexed, dt_date. rewrite map_map. reflexivity.
Qed.

Lemma to_datetime_index (format : string) (c : column) :
  index_values
    (map (fun row => (fst row, parse_datetime format (snd row))) c)
  = index_values c.
Proof.
  unfold index_values, Series_Indexed. rewrite map_map. reflexivity.
Qed.

(** X12: what the variants do without a column and on a column without
    rows.  Given [None], [FieldRequiredError] and [IdentifierNotFoundError]
    answer with an empty report, [ImageFormatNotSupportedError] raises
    [TypeError] and every other column variant raises [AttributeError].
    Given a column without rows, the variants other than the two length
    variants answer with an empty report: none of them raises, the two value
    variants included. *)
Theorem missing_and_empty_columns (limit : Z) (exts : list string)
  (format : string) :
  (to_dict NonNumericValueError (@None column) = Raise AttributeError
   /\ to_dict NullNotAllowedError (@None column) = Raise AttributeError
   /\ to_dict (MinValueError limit) (@None column) = Raise AttributeError
   /\ to_dict (MaxValueError limit) (@None column) = Raise AttributeError
   /\ to_dict (MinLengthError limit) (@None column) = Raise AttributeError
   /\ to_dict (MaxLengthError limit) (@None column) = Raise AttributeError
   /\ to_dict (DateError format) None = Raise AttributeError
   /\ to_dict (DateTimeError format) None = Raise AttributeError
   /\ to_dict BlankNotAllowed (@None column) = Raise AttributeError
   /\ to_dict (ImageFormatNotSupportedError exts) (@None (Series label bool))
      = Raise TypeError
   /\ to_dict FieldRequiredError (@None column)
      = Ok {| reason := Some "FIELD_REQUIRED"; indexes := []; kwargs := [] |}
   /\ to_dict IdentifierNotFoundError (@None column)
      = Ok {| reason := Some "IDENTIFIER_NOT_FOUND"; indexes := [];
              kwargs := [] |})
  /\ (to_dict NonNumericValueError (Some (@nil (label * scalar)))
      = Ok {| reason := Some "NON_NUMERIC_VALUE"; indexes := []; kwargs := [] |}
      /\ to_dict NullNotAllowedError (Some (@nil (label * scalar)))
         = Ok {| reason := Some "NULL_NOT_ALLOWED"; indexes := [];
                 kwargs := [] |}
      /\ to_dict (MinValueError limit) (Some (@nil (label * scalar)))
         = Ok {| reason := Some "MIN_VALUE"; indexes := [];
                 kwargs := [("limit_value", PInt limit)] |}
      /\ to_dict (MaxValueError limit) (Some (@nil (label * scalar)))
         = Ok {| reason := Some "MAX_VALUE"; indexes := [];
                 kwargs := [("limit_value", PInt limit)] |}
      /\ to_dict (DateError format) (Some [])
         = Ok {| reason := Some "INCORRECT_DATE_FORMAT"; indexes := [];
                 kwargs := [("format", PStr format)] |}
      /\ to_dict (DateTimeError format) (Some [])
         = Ok {| reason := Some "INCORRECT_DATETIME_FORMAT"; indexes := [];
                 kwargs := [("format", PStr format)] |}
      /\ to_dict BlankNotAllowed (Some (@nil (label * scalar)))
         = Ok {| reason := Some "BLANK_NOT_ALLOWED"; indexes := [];
                 kwargs := [] |}
      /\ to_dict (ImageFormatNotSupportedError exts)
           (Some (@nil (label * bool)))
         = Ok {| reason := Some "IMAGE_FORMAT_NOT_SUPPORTED"; indexes := [];
                 kwargs := [("supported_extensions", PTuple exts)] |}
      /\ to_dict IdentifierNotFoundError (Some (@nil (label * scalar)))
         = Ok {| reason := Some "IDENTIFIER_NOT_FOUND"; indexes := [];
                 kwargs := [] |}).
Proof. split; repeat split. Qed.

(** X13: no variant invents, renumbers or reorders rows: whenever a variant
    produces a report, its indexes are labels of the column (of the table,
    for [NonUniqueTogetherError]) it was given, in their original order, each
    row at most once. *)
Theorem reports_keep_rows_in_order (c : column) (flags : Series label bool)
  (t : DataFrame label) (limit : Z) (fields exts : list string)
  (format : string) (r : report) :
  (to_dict NonNumericValueError (Some c) = Ok r
   \/ to_dict FieldRequiredError (Some c) = Ok r
   \/ to_dict NullNotAllowedError (Some c) = Ok r
   \/ to_dict (MinValueError limit) (Some c) = Ok r
   \/ to_dict (MaxValueError limit) (Some c) = Ok r
   \/ to_dict (MinLengthError limit) (Some c) = Ok r
   \/ to_dict (MaxLengthError limit) (Some c) = Ok r
   \/ to_dict (DateError format) (Some c) = Ok r
   \/ to_dict (DateTimeError format) (Some c) = Ok r
   \/ to_dict IdentifierNotFoundError (Some c) = Ok r
   \/ to_dict BlankNotAllowed (Some c) = Ok r ->
   subseq (indexes r) (index_values c))
  /\ (to_dict (ImageFormatNotSupportedError exts) (Some flags) = Ok r ->
      subseq (indexes r) (index_values flags))
  /\ (to_dict (NonUniqueTogetherError fields) t = Ok r ->
      subseq (indexes r) (index_values t)).
Proof.
  assert (Hcompare : forall op code,
             (s <- getattr (Some c) ;;
              mask <- compare op s limit ;;
              Ok (form_response (Some code) (Some (select s mask))
                    [("limit_value", PInt limit)]))%py = Ok r ->
             subseq (indexes r) (index_values c)).
  { intros op code H. cbn [getattr rbind] in H.
    destruct (compare op c limit) as [mask|e]; [|discriminate].
    injection H as <-. apply subseq_index_select. }
  assert (Hlen : forall op code,
             (s <- getattr (Some c) ;;
              texts <- str_accessor s ;;
              Ok (form_response (Some code)
                    (Some (select s (compare_len op (str_len texts) limit)))
                    [("limit_value", PInt limit)]))%py = Ok r ->
             subseq (indexes r) (index_values c)).
  { intros op code H. cbn [getattr rbind] in H.
    destruct (str_accessor c) as [texts|e]; [|discriminate].
    injection H as <-. apply subseq_index_select. }
  assert (Hdate : forall code,
             to_dict_method (DateError format) code (Some c) = Ok r ->
             subseq (indexes r) (index_values c)).
  { intros code H. cbn in H. injection H as <-.
    cbn [indexes form_response].
    rewrite <- (to_datetime_index format c), <- dt_date_index.
    apply subseq_index_select. }
  split; [|split].
  - intros [H|[H|[H|[H|[H|[H|[H|[H|[H|[H|H]]]]]]]]]].
    + unfold to_dict in H. cbn in H. injection H as <-.
      cbn [indexes form_response].
      eapply subseq_trans; [|apply subseq_index_select].
      apply subseq_map, subseq_filter.
    + injection H as <-. apply subseq_empty.
    + unfold to_dict in H. cbn in H. injection H as <-.
      apply subseq_index_select.
    + exact (Hcompare Z.ltb "MIN_VALUE" H).
    + exact (Hcompare Z.gtb "MAX_VALUE" H).
    + exact (Hlen Z.ltb "MIN_LENGTH_VALUE" H).
    + exact (Hlen Z.gtb "MAX_LENGTH_VALUE" H).
    + exact (Hdate _ H).
    + exact (Hdate _ H).
    + injection H as <-. apply subseq_refl.
    + unfold to_dict in H. cbn in H. injection H as <-.
      apply subseq_index_select.
  - intros H. unfold to_dict in H. cbn in H. injection H as <-.
    apply subseq_index_select.
  - intros H. unfold to_dict in H.
    cbn [to_dict_method NonUniqueTogetherError CODE] in H.
    destruct (duplicated t fields) as [mask|e]; [|discriminate].
    cbn [rbind] in H. unfold getitem_mask in H.
    destruct (List.length mask =? List.length (rows t))%nat; [|discriminate].
    cbn [rbind] in H. injection H as <-.
    apply (subseq_index_select (rows t) mask).
Qed.


End FurtherDates.

End Further.

(** * The further properties at concrete inputs *)

Lemma blank_is_not_null_witness :
  NoDup (index_values Samples.blanks)
  /\ exists blank null : report Z,
       to_dict BlankNotAllowed (Some Samples.blanks) = Ok blank
       /\ to_dict NullNotAllowedError (Some Samples.blanks) = Ok null
       /\ indexes blank = rows_where is_blank Samples.blanks
       /\ indexes null = rows_where is_null Samples.blanks
       /\ forall i, In i (indexes blank) -> ~ In i (indexes null).
Proof.
  assert (H : NoDup (index_values Samples.blanks))
    by (repeat constructor; simpl; intuition discriminate).
  split; [exact H|]. exact (@blank_is_not_null Z Samples.blanks H).
Defined.

Lemma image_reports_unsupported_rows_witness :
  Forall (fun row : Z * bool => snd row = true) Samples.all_supported
  /\ to_dict (ImageFormatNotSupportedError ["png"]) (Some Samples.all_supported)
     = Ok {| reason := Some "IMAGE_FORMAT_NOT_SUPPORTED"; indexes := [];
             kwargs := [("supported_extensions", PTuple ["png"])] |}.
Proof.
  assert (H : Forall (fun row : Z * bool => snd row = true) Samples.all_supported)
    by (repeat constructor).
  split; [exact H|].
  exact (proj2 (@image_reports_unsupported_rows Z ["png"] Samples.all_supported) H).
Defined.

Lemma value_limits_exclusive_witness :
  numeric_column Samples.numbers /\ NoDup (index_values Samples.numbers)
  /\ 0 <= 5
  /\ exists below above : report Z,
       to_dict (MinValueError 0) (Some Samples.numbers) = Ok below
       /\ to_dict (MaxValueError 5) (Some Samples.numbers) = Ok above
       /\ forall i, In i (indexes below) -> ~ In i (indexes above).
Proof.
  assert (Hc : numeric_column Samples.numbers) by (repeat constructor).
  assert (Hnd : NoDup (index_values Samples.numbers))
    by (repeat constructor; simpl; intuition discriminate).
  assert (Hl : 0 <= 5) by lia.
  split; [exact Hc|]. split; [exact Hnd|]. split; [exact Hl|].
  exact (@value_limits_exclusive Z Samples.numbers 0 5 Hc Hnd Hl).
Defined.

Lemma blank_rows_are_too_short_witness :
  text_column Samples.blanks /\ 1 <= 1
  /\ exists blank short : report Z,
       to_dict BlankNotAllowed (Some Samples.blanks) = Ok blank
       /\ to_dict (MinLengthError 1) (Some Samples.blanks) = Ok short
       /\ subseq (indexes blank) (indexes short).
Proof.
  assert (Hc : text_column Samples.blanks) by (repeat constructor).
  assert (Hl : 1 <= 1) by lia.
  split; [exact Hc|]. split; [exact Hl|].
  exact (@blank_rows_are_too_short Z Samples.blanks 1 Hc Hl).
Defined.

Lemma failed_validation_records_nothing_witness :
  holds_text Samples.number_then_text
  /\ rows Samples.pairs <> [] /\ columns Samples.pairs <> []
  /\ (exists f, In f Samples.unknown_field /\ ~ In f (columns Samples.pairs))
  /\ log_validator_error (MinValueValidator 0) Samples.number_then_text
       {| errors := Samples.reports |}
     = (Raise TypeError, {| errors := Samples.reports |})
  /\ log_validator_error (UniqueTogetherValidator Samples.unknown_field)
       Samples.pairs {| errors := Samples.reports |}
     = (Raise KeyError, {| errors := Samples.reports |}).
Proof.
  assert (Hs : holds_text Samples.number_then_text)
    by (exists 1, "abc"; right; left; reflexivity).
  assert (Hr : rows Samples.pairs <> []) by discriminate.
  assert (Hc : columns Samples.pairs <> []) by discriminate.
  assert (Hf : exists f, In f Samples.unknown_field
                         /\ ~ In f (columns Samples.pairs))
    by (exists "z"; split; [right; left; reflexivity|];
        simpl; intuition discriminate).
  split; [exact Hs|]. split; [exact Hr|]. split; [exact Hc|].
  split; [exact Hf|].
  split.
  - exact (proj1 (proj1 (@failed_validation_records_nothing Z
                           Samples.number_then_text Samples.pairs 0
                           Samples.unknown_field {| errors := Samples.reports |})
                    Hs)).
  - exact (proj2 (@failed_validation_records_nothing Z
                    Samples.number_then_text Samples.pairs 0
                    Samples.unknown_field {| errors := Samples.reports |})
             Hr Hc Hf).
Defined.

Lemma failing_call_ends_the_sequence_witness :
  mapM (@call_report Z) [Call (MinValueError 0) (Some Samples.numbers)]
  = Ok [{| reason := Some "MIN_VALUE"; indexes := [2];
           kwargs := [("limit_value", PInt 0)] |}]
  /\ call_report (Call (MinValueError 0) (Some Samples.only_text))
     = Raise TypeError
  /\ run_calls Samples.calls_with_failure new_manager
     = (Raise TypeError,
        {| errors := [{| reason := Some "MIN_VALUE"; indexes := [2];
                         kwargs := [("limit_value", PInt 0)] |}] |}).
Proof.
  assert (Hb : mapM (@call_report Z)
                 [Call (MinValueError 0) (Some Samples.numbers)]
               = Ok [{| reason := Some "MIN_VALUE"; indexes := [2];
                        kwargs := [("limit_value", PInt 0)] |}])
    by reflexivity.
  assert (Hc : call_report (Call (MinValueError 0) (Some Samples.only_text))
               = Raise TypeError) by reflexivity.
  split; [exact Hb|]. split; [exact Hc|].
  exact (@failing_call_ends_the_sequence Z
           [Call (MinValueError 0) (Some Samples.numbers)]
           [Call FieldRequiredError None]
           (Call (MinValueError 0) (Some Samples.only_text))
           _ TypeError new_manager Hb Hc).
Defined.

Lemma field_order_is_irrelevant_witness :
  (forall f, In f ["a"; "b"] <-> In f ["b"; "a"; "a"])
  /\ match to_dict (NonUniqueTogetherError ["a"; "b"]) Samples.pairs,
           to_dict (NonUniqueTogetherError ["b"; "a"; "a"]) Samples.pairs with
     | Ok r1, Ok r2 => indexes r1 = indexes r2
     | Raise e1, Raise e2 => e1 = e2
     | _, _ => False
     end.
Proof.
  assert (H : forall f, In f ["a"; "b"] <-> In f ["b"; "a"; "a"])
    by (intros f; simpl; tauto).
  split; [exact H|].
  exact (@field_order_is_irrelevant Z Samples.pairs ["a"; "b"] ["b"; "a"; "a"] H).
Defined.

Lemma unknown_field_is_a_key_error_witness :
  rows Samples.pairs <> [] /\ columns Samples.pairs <> []
  /\ (exists f, In f Samples.unknown_field /\ ~ In f (columns Samples.pairs))
  /\ to_dict (NonUniqueTogetherError Samples.unknown_field) Samples.pairs
     = Raise KeyError.
Proof.
  assert (Hr : rows Samples.pairs <> []) by discriminate.
  assert (Hc : columns Samples.pairs <> []) by discriminate.
  assert (Hf : exists f, In f Samples.unknown_field
                         /\ ~ In f (columns Samples.pairs))
    by (exists "z"; split; [right; left; reflexivity|];
        simpl; intuition discriminate).
  split; [exact Hr|]. split; [exact Hc|]. split; [exact Hf|].
  exact (@unknown_field_is_a_key_error Z Samples.pairs Samples.unknown_field
           Hr Hc Hf).
Defined.

Lemma first_row_is_never_reported_witness :
  rows Samples.pairs
  = (0, [Num 1; Num 2]) :: [(1, [Num 1; Num 2]); (2, [Num 1; Num 3])]
  /\ ["a"; "b"] <> []
  /\ (forall f, In f ["a"; "b"] -> In f (columns Samples.pairs))
  /\ exists (mask : list bool) (r : report Z),
       to_dict (NonUniqueTogetherError ["a"; "b"]) Samples.pairs = Ok r
       /\ indexes r
          = index_values
              (select [(1, [Num 1; Num 2]); (2, [Num 1; Num 3])] mask)
       /\ subseq (indexes r)
            (index_values [(1, [Num 1; Num 2]); (2, [Num 1; Num 3])])
       /\ (List.length (indexes r) < List.length (rows Samples.pairs))%nat.
Proof.
  assert (Hrows : rows Samples.pairs
                  = (0, [Num 1; Num 2])
                      :: [(1, [Num 1; Num 2]); (2, [Num 1; Num 3])])
    by reflexivity.
  assert (Hne : ["a"; "b"] <> @nil string) by discriminate.
  assert (Hsub : forall f, In f ["a"; "b"] -> In f (columns Samples.pairs))
    by (intros f Hf; exact Hf).
  split; [exact Hrows|]. split; [exact Hne|]. split; [exact Hsub|].
  exact (@first_row_is_never_reported Z Samples.pairs ["a"; "b"] 0
           [Num 1; Num 2] _ Hrows Hne Hsub).
Defined.

Lemma reports_keep_rows_in_order_witness :
  to_dict NonNumericValueError (Some Samples.mixed_text)
  = Ok {| reason := Some "NON_NUMERIC_VALUE"; indexes := [1]; kwargs := [] |}
  /\ subseq [1] (index_values Samples.mixed_text).
Proof.
  assert (H : to_dict NonNumericValueError (Some Samples.mixed_text)
              = Ok {| reason := Some "NON_NUMERIC_VALUE"; indexes := [1];
                      kwargs := [] |}) by reflexivity.
  split; [exact H|].
  exact (proj1 (@reports_keep_rows_in_order Z string string Samples.parse_day
                  (fun d => d) Samples.mixed_text Samples.flags Samples.pairs
                  0 [] [] "%Y-%m-%d"
                  {| reason := Some "NON_NUMERIC_VALUE"; indexes := [1];
                     kwargs := [] |})
           (or_introl H)).
Defined.

(** * The amended claims on raising at concrete inputs *)



(** With no field listed every row after the first agrees with an earlier
    one on all the fields listed, yet nothing is reported: the evaluation
    raises; it also raises for a field that is no column. *)
Lemma non_unique_raises_on_bad_fields :
  (spec_duplicate Samples.pairs [] 1
   /\ to_dict (NonUniqueTogetherError []) Samples.pairs = Raise ValueError
   /\ ~ (exists r, to_dict (NonUniqueTogetherError []) Samples.pairs = Ok r))
  /\ (to_dict (NonUniqueTogetherError Samples.unknown_field) Samples.pairs
      = Raise KeyError
      /\ ~ (exists r,
              to_dict (NonUniqueTogetherError Samples.unknown_field)
                Samples.pairs = Ok r)).
Proof.
  split; [split; [|split]|split].
  - exists 0%nat, [Num 1; Num 2], [Num 1; Num 2].
    split; [lia|]. split; [reflexivity|]. split; [reflexivity|].
    intros p name _ Hin. destruct Hin.
  - reflexivity.
  - intros (r & Hr). discriminate Hr.
  - reflexivity.
  - intros (r & Hr). discriminate Hr.
Qed.
